(** * ombt: streaming statistics and the test-run coordinator

    A shallow embedding of [ombt/rpcclient.py]: the [Stats] class, the
    readiness probe of [_Base], the controller's role registry, the two
    test controllers, the two minion test loops and the argument parser
    [_parse_args], followed by the properties established about them.

    Numbers.  Python samples are floats; here every number is an exact
    rational ([Q]), so rounding is not part of the model.  [math.sqrt] has
    no rational result: the standard deviation is kept as the symbolic
    root [Sqrt r] of its radicand [r], and [math.sqrt] of a negative
    number raises [ValueError] as in Python.  Integers ([count], the
    registry counts) are [Z].

    Effects.  A method is a function from the state of its object to an
    [outcome]: a return value, an exception or a wait that never ends,
    each with the state reached.  What is printed and cast is appended to
    a trace.

    Environment.  The message bus is outside the program.  The messages
    the controller's server handles while the main thread waits are given
    as a list, handled one at a time in order of arrival; the clock and
    the operation a minion times are given as functions of how often
    they have been called, and so are the outcomes of the calls of the
    readiness probe.  Python's [int] on text is a parameter of the
    parser. *)

From Stdlib Require Import ZArith QArith Lia Lqa List Ascii.
From stdpp Require Import base gmap strings.

Local Open Scope Z_scope.
Local Open Scope Q_scope.

(** ** Exceptions and the outcome of a call *)

Inductive exn : Type :=
| ZeroDivisionError
| ValueError
| KeyError
| AttributeError
| NameError
| TypeError
| OperationError.

(** A call on an object in state [S] returns a value and leaves a state,
    raises and leaves the state as mutated up to the raise, or blocks
    for ever in the state reached. *)
Inductive outcome (S A : Type) : Type :=
| Returns (a : A) (s : S)
| Raises (e : exn) (s : S)
| Blocks (s : S).
Arguments Returns {S A} a s.
Arguments Raises {S A} e s.
Arguments Blocks {S A} s.

Definition M (S A : Type) : Type := S -> outcome S A.

Definition ret {S A} (a : A) : M S A := fun s => Returns a s.

Definition bind {S A B} (m : M S A) (k : A -> M S B) : M S B :=
  fun s =>
    match m s with
    | Returns a s' => k a s'
    | Raises e s' => Raises e s'
    | Blocks s' => Blocks s'
    end.

Definition raise {S A} (e : exn) : M S A := fun s => Raises e s.
Definition get {S} : M S S := fun s => Returns s s.
Definition put {S} (s : S) : M S unit := fun _ => Returns tt s.
Definition modify {S} (f : S -> S) : M S unit := fun s => Returns tt (f s).

#[global] Instance M_ret {S} : MRet (M S) := @ret S.
#[global] Instance M_bind {S} : MBind (M S) := fun A B k m => bind m k.

(** The state left by a call, whatever its outcome. *)
Definition state_of {S A} (o : outcome S A) : S :=
  match o with
  | Returns _ s => s
  | Raises _ s => s
  | Blocks s => s
  end.

(** ** Python truthiness of an optional number *)

(** [bool(x)]: [None] and zero are false. *)
Definition truthy (x : option Q) : bool :=
  match x with
  | None => false
  | Some q => negb (Qeq_bool q 0)
  end.

(** [x or v] for a number [v]. *)
Definition or_else (x : option Q) (v : Q) : Q :=
  match x with
  | Some q => if truthy x then q else v
  | None => v
  end.

Definition Qlt_bool (a b : Q) : bool := negb (Qle_bool b a).

(** [math.sqrt r], symbolic. *)
Inductive root : Type := Sqrt (radicand : Q).

(** ** class Stats *)

Module Stats.

Record t : Type := mk {
  min : option Q;
  max : option Q;
  total : Q;
  count : Z;
  average : option Q;
  std_deviation : option root;
  _sum_of_squares : Q
}.

(** [Stats()] *)
Definition __init__ : t :=
  {| min := None; max := None; total := 0; count := 0%Z;
     average := None; std_deviation := None; _sum_of_squares := 0 |}.

Definition set_min (v : Q) (self : t) : t :=
  mk (Some v) (max self) (total self) (count self)
     (average self) (std_deviation self) (_sum_of_squares self).
Definition set_max (v : Q) (self : t) : t :=
  mk (min self) (Some v) (total self) (count self)
     (average self) (std_deviation self) (_sum_of_squares self).
Definition set_total (v : Q) (self : t) : t :=
  mk (min self) (max self) v (count self)
     (average self) (std_deviation self) (_sum_of_squares self).
Definition set_count (v : Z) (self : t) : t :=
  mk (min self) (max self) (total self) v
     (average self) (std_deviation self) (_sum_of_squares self).
Definition set_average (v : Q) (self : t) : t :=
  mk (min self) (max self) (total self) (count self)
     (Some v) (std_deviation self) (_sum_of_squares self).
Definition set_std_deviation (v : root) (self : t) : t :=
  mk (min self) (max self) (total self) (count self)
     (average self) (Some v) (_sum_of_squares self).
Definition set_sum_of_squares (v : Q) (self : t) : t :=
  mk (min self) (max self) (total self) (count self)
     (average self) (std_deviation self) v.

(** [not self.min or min_value < self.min] *)
Definition unset_or_above (cur : option Q) (v : Q) : bool :=
  match cur with
  | Some m => negb (truthy cur) || Qlt_bool v m
  | None => true
  end.

(** [not self.max or max_value > self.max] *)
Definition unset_or_below (cur : option Q) (v : Q) : bool :=
  match cur with
  | Some m => negb (truthy cur) || Qlt_bool m v
  | None => true
  end.

Definition _update (value : Q) (min_value max_value : option Q)
    (count_ : Z) (squared : option Q) : M t unit :=
  fun self =>
    let min_value := or_else min_value value in
    let max_value := or_else max_value value in
    let squared := or_else squared (value * value) in
    let self :=
      if unset_or_above (min self) min_value
      then set_min min_value self else self in
    let self :=
      if unset_or_below (max self) max_value
      then set_max max_value self else self in
    let self := set_total (total self + value) self in
    let self := set_count (count self + count_)%Z self in
    let self := set_sum_of_squares (_sum_of_squares self + squared) self in
    let n := inject_Z (count self) in
    if Qeq_bool n 0 then Raises ZeroDivisionError self else
    let avg := total self / n in
    let self := set_average avg self in
    let r := _sum_of_squares self / n - avg * avg in
    if Qlt_bool r 0 then Raises ValueError self else
    Returns tt (set_std_deviation (Sqrt r) self).

Definition update (value : Q) : M t unit :=
  _update value None None 1%Z None.

Definition merge (stats : t) : M t unit :=
  _update (total stats) (min stats) (max stats) (count stats)
          (Some (_sum_of_squares stats)).

End Stats.

(** ** Roles, reports and observable effects *)

Definition RPC_CLIENT : string := "RPCClient".
Definition RPC_SERVER : string := "RPCServer".
Definition LISTENER : string := "Listener".
Definition NOTIFIER : string := "Notifier".

(** The [results] dictionary a minion sends: [latency] is the
    [__dict__] of its [Stats], which [client_result] copies into a
    fresh [Stats] with [l.__dict__.update]. *)
Record results : Type := mk_results {
  latency : Stats.t;
  throughput : Q;
  calls : Z
}.

(** What [Stats.__str__] formats; [%i] and [%f] fail on [None]. *)
Record text : Type := mk_text {
  shown_min : Q;
  shown_max : Q;
  shown_avg : Q;
  shown_std : root
}.

Definition __str__ (self : Stats.t) : option text :=
  match Stats.min self, Stats.max self,
        Stats.average self, Stats.std_deviation self with
  | Some a, Some b, Some c, Some d => Some (mk_text a b c d)
  | _, _, _, _ => None
  end.

(** Lines written by [print] and messages sent by [cast]. *)
Inductive effect : Type :=
| Line (s : string)
| Latency_line (s : text)
| Throughput_line (s : text)
| Averaged_over_line (n : Z)
| Cast (meth : string) (count : Z) (data : string)
       (severity : option string) (verbose : bool)
| Cast_result (r : results).

(** Messages the controller's server handles while the main thread
    sleeps or waits. *)
Inductive message : Type :=
| Client_pong (kind : string)
| Client_result (r : results).

(** ** class _Base: the readiness probe of [__init__]

    [client.call({}, 'self_ready')] reaches the object's own endpoint,
    whose [self_ready] returns [True], or times out after 0.2 s. *)

Inductive call_outcome : Type :=
| Replies
| MessagingTimeout.

(** How [__init__] ends, with the number of calls the probe has made:
    it returns, or raises [Exception("Unable to contact message bus")]. *)
Inductive probe_result : Type :=
| Listening (calls : nat)
| Unable_to_contact_message_bus (calls : nat).

Module _Base.

(** [while not ready and attempts < 25], cut off after [fuel]
    iterations; [answers k] is the outcome of call number [k]. *)
Fixpoint probing (answers : nat -> call_outcome) (fuel : nat)
    (ready : bool) (attempts : Z) (calls : nat) : option (bool * Z * nat) :=
  match fuel with
  | O => None
  | S fuel' =>
      if negb ready && (attempts <? 25)%Z
      then
        match answers calls with
        | Replies => probing answers fuel' true attempts (S calls)
        | MessagingTimeout =>
            probing answers fuel' ready (attempts + 1)%Z (S calls)
        end
      else Some (ready, attempts, calls)
  end.

Definition __init__ (answers : nat -> call_outcome) (fuel : nat)
    : option probe_result :=
  match probing answers fuel false 0%Z 0%nat with
  | None => None
  | Some (ready, _, calls) =>
      Some (if negb ready
            then Unable_to_contact_message_bus calls
            else Listening calls)
  end.

End _Base.

(** ** class _Controller and its two subclasses

    [RPCController] and [NotifyController] add the same attributes;
    [_result_count] exists only once a test has been dispatched. *)

Record Controller : Type := mk_Controller {
  _minions : gmap string Z;
  _total_minions : Z;
  _throughput : Stats.t;
  _latency : Stats.t;
  _done : bool;
  _timeout : option Z;
  _result_count : option Z
}.

Definition set_minions (v : gmap string Z) (self : Controller) :=
  mk_Controller v (_total_minions self) (_throughput self) (_latency self)
                (_done self) (_timeout self) (_result_count self).
Definition set_total_minions (v : Z) (self : Controller) :=
  mk_Controller (_minions self) v (_throughput self) (_latency self)
                (_done self) (_timeout self) (_result_count self).
Definition set_throughput (v : Stats.t) (self : Controller) :=
  mk_Controller (_minions self) (_total_minions self) v (_latency self)
                (_done self) (_timeout self) (_result_count self).
Definition set_latency (v : Stats.t) (self : Controller) :=
  mk_Controller (_minions self) (_total_minions self) (_throughput self) v
                (_done self) (_timeout self) (_result_count self).
Definition set_done (v : bool) (self : Controller) :=
  mk_Controller (_minions self) (_total_minions self) (_throughput self)
                (_latency self) v (_timeout self) (_result_count self).
Definition set_result_count (v : Z) (self : Controller) :=
  mk_Controller (_minions self) (_total_minions self) (_throughput self)
                (_latency self) (_done self) (_timeout self) (Some v).

(** Run a method of an attribute object on the attribute, keeping the
    attribute's mutations also when the method raises. *)
Definition on {S T A} (proj : S -> T) (inj : T -> S -> S)
    (m : M T A) : M S A :=
  fun s =>
    match m (proj s) with
    | Returns a t => Returns a (inj t s)
    | Raises e t => Raises e (inj t s)
    | Blocks t => Blocks (inj t s)
    end.

(** The controller together with what it has printed and cast so far,
    oldest first. *)
Definition World : Type := Controller * list effect.

Definition self_ {A} (m : M Controller A) : M World A :=
  on fst (fun c w => (c, snd w)) m.

Definition emit (e : effect) : M World unit :=
  modify (fun w => (fst w, snd w ++ [e])).

(** [d[k]] *)
Definition getitem {S} (d : gmap string Z) (k : string) : M S Z :=
  match d !! k with
  | Some v => mret v
  | None => raise KeyError
  end.

Module _Controller.

Definition client_pong (kind : string) : M Controller unit :=
  self ← get;
  let d := _minions self in
  let d := match d !! kind with
           | None => <[kind := 0%Z]> d
           | Some _ => d
           end in
  n ← getitem d kind;
  put (set_total_minions (_total_minions self + 1)%Z
         (set_minions (<[kind := (n + 1)%Z]> d) self)).

End _Controller.

(** [self._done.wait(self._timeout)] while the server handles the
    messages [arrivals]: those that arrive before the deadline, or all
    that ever arrive when there is no deadline.  A handler that raises
    is logged by the server and its mutations stay. *)
Fixpoint wait (handle : message -> M Controller unit)
    (arrivals : list message) : M Controller bool :=
  fun self =>
    if _done self then Returns true self else
    match arrivals with
    | [] =>
        match _timeout self with
        | Some _ => Returns false self
        | None => Blocks self
        end
    | m :: arrivals' => wait handle arrivals' (state_of (handle m self))
    end.

(** [_print_stats], the same in both subclasses. *)
Definition _print_stats : M World unit :=
  emit (Line (String (Ascii.ascii_of_nat 10) EmptyString)) ;;
  w ← get;
  let self := fst w in
  match __str__ (_latency self) with
  | None => raise TypeError
  | Some l =>
      emit (Latency_line l) ;;
      match __str__ (_throughput self) with
      | None => raise TypeError
      | Some t =>
          emit (Throughput_line t) ;;
          match _result_count self with
          | None => raise AttributeError
          | Some n => emit (Averaged_over_line n)
          end
      end
  end.

(** [client_result], for the role whose count is compared. *)
Definition client_result_of (role : string) (r : results)
    : M Controller unit :=
  self ← get;
  match _result_count self with
  | None => raise AttributeError
  | Some n =>
      put (set_result_count (n + 1) self) ;;
      let t := throughput r in
      on _throughput set_throughput (Stats.update t) ;;
      let l := latency r in
      on _latency set_latency (Stats.merge l) ;;
      self ← get;
      expected ← getitem (_minions self) role;
      if (n + 1 =? expected)%Z
      then put (set_done true self)
      else mret tt
  end.

(** The server's dispatch of a message to the handler of its name, for
    a controller that counts the results of [role]. *)
Definition handle_for (role : string) (m : message) : M Controller unit :=
  match m with
  | Client_pong kind => _Controller.client_pong kind
  | Client_result r => client_result_of role r
  end.

Module RPCController.

(** [_Controller.__init__] leaves an empty registry, casts the ping and
    sleeps while the server handles the [pongs]; then the aggregates, the
    event and the timeout are set.  The pongs touch the registry only, so
    the attributes are all placed in the record first.  The readiness
    probe of [_Base.__init__] is taken to succeed. *)
Definition __init__ (timeout : option Z) (pongs : list string)
    : Controller :=
  let self :=
    mk_Controller ∅ 0%Z Stats.__init__ Stats.__init__ false timeout None in
  fold_left (fun c k => state_of (_Controller.client_pong k c)) pongs self.

Definition client_result (r : results) : M Controller unit :=
  client_result_of RPC_CLIENT r.

(** The RPC server's dispatch to the endpoint method of the message's
    name. *)
Definition handle (m : message) : M Controller unit :=
  match m with
  | Client_pong kind => _Controller.client_pong kind
  | Client_result r => client_result r
  end.

Definition _run_test (meth : string) (count : Z) (data : string)
    (verbose : bool) (arrivals : list message) : M World (option Z) :=
  w ← get;
  let self := fst w in
  if match _minions self !! RPC_CLIENT with
     | None => true
     | Some n => (n =? 0)%Z
     end
  then emit (Line "No RPC clients visible") ;; mret (Some (-1)%Z)
  else
    self_ (modify (set_result_count 0)) ;;
    self_ (modify (set_done false)) ;;
    emit (Cast meth count data None verbose) ;;
    signalled ← self_ (wait handle arrivals);
    (if negb signalled
     then emit (Line (meth ++ " test timed out!"))
     else _print_stats) ;;
    mret None.

End RPCController.

Module NotifyController.

Definition __init__ := RPCController.__init__.

Definition client_result (r : results) : M Controller unit :=
  client_result_of NOTIFIER r.

Definition handle (m : message) : M Controller unit :=
  match m with
  | Client_pong kind => _Controller.client_pong kind
  | Client_result r => client_result r
  end.

(** [meth] is not bound in this method: formatting the time-out line
    raises [NameError]. *)
Definition run_notification_test (count : Z) (data : string)
    (severity : string) (verbose : bool) (arrivals : list message)
    : M World (option Z) :=
  w ← get;
  let self := fst w in
  if match _minions self !! NOTIFIER with
     | None => true
     | Some n => (n =? 0)%Z
     end
  then emit (Line "No notifier clients visible") ;; mret (Some (-1)%Z)
  else
    self_ (modify (set_result_count 0)) ;;
    self_ (modify (set_done false)) ;;
    emit (Cast "test_notify" count data (Some severity) verbose) ;;
    signalled ← self_ (wait handle arrivals);
    (if negb signalled
     then raise NameError
     else _print_stats) ;;
    mret None.

End NotifyController.

(** ** The minion test loops

    The bus and the clock are the environment: [clock k] is the value of
    the [k]-th reading of [now()], and [op k] tells whether the [k]-th
    call of the operation under test returns ([None]) or raises.
    [logging] calls change nothing that is modelled and are left out. *)

Record Minion : Type := mk_Minion {
  readings : nat;
  operations : nat;
  sent : list effect
}.

Section MinionLoops.

Variable clock : nat -> Q.
Variable op : nat -> option exn.
(** [getattr(self._notifier, severity)] succeeds. *)
Variable has_severity : string -> bool.

Definition now : M Minion Q :=
  fun self =>
    Returns (clock (readings self))
            (mk_Minion (S (readings self)) (operations self) (sent self)).

Definition func : M Minion unit :=
  fun self =>
    let self' :=
      mk_Minion (readings self) (S (operations self)) (sent self) in
    match op (operations self) with
    | None => Returns tt self'
    | Some e => Raises e self'
    end.

Definition controller_cast (r : results) : M Minion unit :=
  modify (fun self =>
    mk_Minion (readings self) (operations self)
              (sent self ++ [Cast_result r])).

(** A method call on a local object. *)
Definition local {S T A} (m : M T A) (obj : T) : M S T :=
  match m obj with
  | Returns _ obj' => mret obj'
  | Raises e _ => raise e
  | Blocks _ => fun s => Blocks s
  end.

(** One pass through the body of [while not stop], up to
    [calls += 1]. *)
Definition iteration (latency : Stats.t) : M Minion Stats.t :=
  t ← now;
  func ;;
  t' ← now;
  local (Stats.update ((t' - t) * 1000)) latency.

(** [count and calls >= count] *)
Definition reached (count calls : Z) : bool :=
  negb (count =? 0)%Z && (count <=? calls)%Z.

(** The [while] loop, cut off after [fuel] iterations ([None]). *)
Fixpoint while_not_stop (fuel : nat) (count : Z) (latency : Stats.t)
    (calls : Z) (self : Minion)
    : option (outcome Minion (Stats.t * Z)) :=
  match fuel with
  | O => None
  | S fuel' =>
      match iteration latency self with
      | Returns latency' self' =>
          let calls' := (calls + 1)%Z in
          if reached count calls'
          then Some (Returns (latency', calls') self')
          else while_not_stop fuel' count latency' calls' self'
      | Raises e self' => Some (Raises e self')
      | Blocks self' => Some (Blocks self')
      end
  end.

(** What follows the loop: build [results] and cast them. *)
Definition report (t_start : Q) (latency : Stats.t) (calls : Z)
    : M Minion unit :=
  t_end ← now;
  let elapsed := t_end - t_start in
  if Qeq_bool elapsed 0 then raise ZeroDivisionError else
  controller_cast (mk_results latency (inject_Z calls / elapsed) calls).

Definition run_loop (fuel : nat) (count : Z) (t_start : Q)
    (self : Minion) : option (outcome Minion unit) :=
  match while_not_stop fuel count Stats.__init__ 0%Z self with
  | None => None
  | Some (Returns (latency, calls) self') =>
      Some (report t_start latency calls self')
  | Some (Raises e self') => Some (Raises e self')
  | Some (Blocks self') => Some (Blocks self')
  end.

(** [RPCTestClient._run_rpc_test] *)
Definition _run_rpc_test (fuel : nat) (count : Z) (verbose : bool)
    (self : Minion) : option (outcome Minion unit) :=
  match now self with
  | Returns t_start self' => run_loop fuel count t_start self'
  | Raises e self' => Some (Raises e self')
  | Blocks self' => Some (Blocks self')
  end.

(** [TestNotifier.test_notify] *)
Definition test_notify (fuel : nat) (count : Z) (data severity : string)
    (verbose : bool) (self : Minion) : option (outcome Minion unit) :=
  if negb (has_severity severity) then Some (Raises AttributeError self)
  else
    match now self with
    | Returns t_start self' => run_loop fuel count t_start self'
    | Raises e self' => Some (Raises e self')
    | Blocks self' => Some (Blocks self')
    end.

End MinionLoops.

(** ** _parse_args

    The values of the dictionary are integers, strings or [None].
    Arguments are ASCII text. *)

Inductive arg_value : Type :=
| Int (n : Z)
| Str (s : string)
| NoneValue.

(** A Python dictionary with its insertion order: assigning to a key
    that is present keeps its position, a new key goes last. *)
Module Dict.

Definition t : Type := list (string * arg_value).

Fixpoint get (key : string) (d : t) : option arg_value :=
  match d with
  | [] => None
  | (k, v) :: d' => if String.eqb k key then Some v else get key d'
  end.

Fixpoint set (key : string) (v : arg_value) (d : t) : t :=
  match d with
  | [] => [(key, v)]
  | (k, x) :: d' =>
      if String.eqb k key then (k, v) :: d' else (k, x) :: set key v d'
  end.

Definition keys (d : t) : list string := map fst d.

End Dict.

(** What [_parse_args] prints before it raises: a line of text, or the
    line that lists the keys of the dictionary in its order. *)
Inductive diagnostic : Type :=
| Text_line (s : string)
| Keys_line (keys : list string).

(** [SyntaxError(msg)], raised by [_parse_args], and the [ValueError]
    of [int(value)]. *)
Inductive parse_error : Type :=
| SyntaxError (msg : string)
| IntValueError (literal : string).

(** [_parse_args] returns the dictionary, or raises and leaves it as
    mutated so far. *)
Inductive parsed : Type :=
| Values (values : Dict.t)
| Rejected (e : parse_error) (values : Dict.t).

Definition values_of (p : parsed) : Dict.t :=
  match p with
  | Values values => values
  | Rejected _ values => values
  end.

(** [str.lower()] on ASCII text. *)
Definition lower_ascii (c : ascii) : ascii :=
  let n := nat_of_ascii c in
  if (65 <=? n)%nat && (n <=? 90)%nat then ascii_of_nat (n + 32) else c.

Fixpoint lower (s : string) : string :=
  match s with
  | EmptyString => EmptyString
  | String c s' => String (lower_ascii c) (lower s')
  end.

(** [s.split(sep)] for a one-character separator. *)
Fixpoint split (sep : ascii) (s : string) : list string :=
  match s with
  | EmptyString => [EmptyString]
  | String c s' =>
      if Ascii.eqb c sep then EmptyString :: split sep s'
      else
        match split sep s' with
        | part :: parts => String c part :: parts
        | [] => [String c EmptyString]
        end
  end.

Section ParseArgs.

(** [int(value)]; [None] when it raises [ValueError]. *)
Variable int : string -> option Z.

Fixpoint _parse_args (args : list string) (values : Dict.t)
    : parsed * list diagnostic :=
  match args with
  | [] => (Values values, [])
  | a :: args' =>
      let arg := lower a in
      match split "="%char arg with
      | [key; value] =>
          match Dict.get key values with
          | None =>
              (Rejected (SyntaxError ("unknown argument: " ++ key)) values,
               [Text_line ("Error - unrecognized argument " ++ key);
                Keys_line (Dict.keys values)])
          | Some (Int _) =>
              match int value with
              | Some n => _parse_args args' (Dict.set key (Int n) values)
              | None => (Rejected (IntValueError value) values, [])
              end
          | Some _ => _parse_args args' (Dict.set key (Str value) values)
          end
      | _ =>
          (Rejected (SyntaxError ("bad argument: " ++ arg)) values,
           [Text_line "Error - argument format is key=value";
            Text_line (" - " ++ arg ++ " is not valid")])
      end
  end.

End ParseArgs.

(** ** Building a statistic from a sequence of samples *)

Fixpoint updates (samples : list Q) : M Stats.t unit :=
  match samples with
  | [] => mret tt
  | x :: samples' => Stats.update x ;; updates samples'
  end.

(** [Stats()] followed by one [update] per sample. *)
Definition built (samples : list Q) : outcome Stats.t unit :=
  updates samples Stats.__init__.

(** ** What a statistic stands for

    The sums a statistic holds once it has absorbed the samples [l], and
    the equality of two statistics as numbers (two fractions of equal
    value are the same number). *)

Fixpoint sum (l : list Q) : Q :=
  match l with
  | [] => 0
  | x :: l' => x + sum l'
  end.

Fixpoint sum_sq (l : list Q) : Q :=
  match l with
  | [] => 0
  | x :: l' => x * x + sum_sq l'
  end.

Definition size (l : list Q) : Q := inject_Z (Z.of_nat (length l)).

Definition summarises (l : list Q) (s : Stats.t) : Prop :=
  Stats.count s = Z.of_nat (length l) /\
  Stats.total s == sum l /\
  Stats._sum_of_squares s == sum_sq l.

Definition same_number (a b : option Q) : Prop :=
  match a, b with
  | Some x, Some y => x == y
  | None, None => True
  | _, _ => False
  end.

Definition same_root (a b : option root) : Prop :=
  match a, b with
  | Some (Sqrt x), Some (Sqrt y) => x == y
  | None, None => True
  | _, _ => False
  end.

Record same_stats (a b : Stats.t) : Prop := {
  same_min : same_number (Stats.min a) (Stats.min b);
  same_max : same_number (Stats.max a) (Stats.max b);
  same_count : Stats.count a = Stats.count b;
  same_total : Stats.total a == Stats.total b;
  same_sum_of_squares : Stats._sum_of_squares a == Stats._sum_of_squares b;
  same_average : same_number (Stats.average a) (Stats.average b);
  same_std_deviation :
    same_root (Stats.std_deviation a) (Stats.std_deviation b)
}.

(** ** Vocabulary of the statements about statistics *)

Definition least (m : Q) (l : list Q) : Prop :=
  (exists x, In x l /\ x == m) /\ forall y, In y l -> m <= y.

Definition greatest (m : Q) (l : list Q) : Prop :=
  (exists x, In x l /\ x == m) /\ forall y, In y l -> y <= m.

Definition nonzero (l : list Q) : Prop := forall x, In x l -> ~ x == 0.

(** The two derived fields as [_update] computes them from the sums. *)
Definition derived (s : Stats.t) : Prop :=
  let n := inject_Z (Stats.count s) in
  let avg := Stats.total s / n in
  Stats.average s = Some avg /\
  Stats.std_deviation s
  = Some (Sqrt (Stats._sum_of_squares s / n - avg * avg)).

(** [s] is what the samples [l] should give: their sums, their least
    and greatest element, and the derived fields. *)
Definition tracks (l : list Q) (s : Stats.t) : Prop :=
  summarises l s /\
  (l = [] -> Stats.min s = None /\ Stats.max s = None) /\
  (l <> [] ->
   (exists lo, Stats.min s = Some lo /\ least lo l) /\
   (exists hi, Stats.max s = Some hi /\ greatest hi l) /\
   derived s).


(** The statistics obtained from [Stats()] by updates and by merges of
    statistics obtained the same way from at least one sample, with the
    samples they have absorbed. *)
Inductive reachable : list Q -> Stats.t -> Prop :=
| reach_init : reachable [] Stats.__init__
| reach_update l s x s' :
    reachable l s ->
    Stats.update x s = Returns tt s' ->
    reachable (l ++ [x]) s'
| reach_merge l s l' stats s' :
    reachable l s ->
    reachable l' stats -> l' <> [] ->
    Stats.merge stats s = Returns tt s' ->
    reachable (l ++ l') s'.

(** ** Vocabulary of the statements about a test run *)

(** The registry shows no minion of [role]. *)
Definition none_visible (role : string) (self : Controller) : Prop :=
  _minions self !! role = None \/ _minions self !! role = Some 0%Z.

(** The controller as [_run_test] and [run_notification_test] leave it
    when they cast the test: [_result_count = 0] and [_done] cleared. *)
Definition dispatched (self : Controller) : Controller :=
  set_done false (set_result_count 0 self).

(** No result among [arrivals] brings [_result_count] to the count the
    registry holds for [role] at the time the result is handled. *)
Fixpoint never_equal (role : string) (handle : message -> M Controller unit)
    (arrivals : list message) (self : Controller) : Prop :=
  match arrivals with
  | [] => True
  | m :: arrivals' =>
      match m with
      | Client_result _ =>
          forall n, _result_count self = Some n ->
                    _minions self !! role <> Some (n + 1)%Z
      | Client_pong _ => True
      end /\
      never_equal role handle arrivals' (state_of (handle m self))
  end.

(** The latency samples of a loop whose first reading of the clock
    inside the loop is reading number [first]: iteration [k] reads the
    clock before and after its operation. *)
Definition elapsed_ms (clock : nat -> Q) (first k : nat) : Q :=
  (clock (first + 2 * k + 1)%nat - clock (first + 2 * k)%nat) * 1000.

Definition samples (clock : nat -> Q) (first n : nat) : list Q :=
  map (elapsed_ms clock first) (seq 0 n).

(** A statistic that holds the sums of some samples, and the latency
    of a report whose minion timed at least one call. *)
Definition consistent (s : Stats.t) : Prop := exists l, summarises l s.



(** ** Vocabulary of the further statements *)




(** Three time-outs, then a reply. *)
Definition fourth_call_answered (k : nat) : call_outcome :=
  if (k <? 3)%nat then MessagingTimeout else Replies.

(** The number of occurrences of a character in a string. *)
Fixpoint occurrences (c : ascii) (s : string) : nat :=
  match s with
  | EmptyString => 0
  | String c' s' => (if Ascii.eqb c' c then 1 else 0) + occurrences c s'
  end.

(** Both absent, both integers, or both present and not integers. *)
Definition same_kind (a b : option arg_value) : Prop :=
  match a, b with
  | None, None => True
  | Some (Int _), Some (Int _) => True
  | Some (Int _), _ | _, Some (Int _) => False
  | Some _, Some _ => True
  | _, _ => False
  end.

(** The dictionary [_notify_test] starts from. *)
Definition notify_defaults : Dict.t :=
  [("length", Int 1024); ("calls", Int 1); ("severity", Str "debug");
   ("verbose", NoneValue)].

(** An [int] that refuses every text. *)
Definition no_int : string -> option Z := fun _ => None.

(** * Properties *)

(** Reduce the setters and projections of [Stats.t], nothing else. *)
Ltac stats_fields :=
  unfold Stats.set_average, Stats.set_std_deviation,
    Stats.set_sum_of_squares, Stats.set_count, Stats.set_total,
    Stats.set_min, Stats.set_max;
  cbn [Stats.min Stats.max Stats.total Stats.count Stats.average
       Stats.std_deviation Stats._sum_of_squares].

(** Unfold the monadic plumbing, and nothing of the program. *)
Ltac step :=
  cbv [mbind M_bind bind mret M_ret ret get put modify raise emit self_ on];
  cbn [fst snd].


(** ** Sums of samples *)

Lemma size_cons x l : size (x :: l) == size l + 1.
Proof.
  unfold size. cbn [length]. rewrite Nat2Z.inj_succ, <- Z.add_1_r.
  rewrite inject_Z_plus. reflexivity.
Qed.

Lemma size_app l l' : size (l ++ l') == size l + size l'.
Proof.
  unfold size. rewrite length_app, Nat2Z.inj_add, inject_Z_plus. reflexivity.
Qed.

Lemma size_nonneg l : 0 <= size l.
Proof.
  unfold size. change 0 with (inject_Z 0). rewrite <- Zle_Qle. lia.
Qed.

Lemma size_pos l : l <> [] -> 0 < size l.
Proof.
  intros H. unfold size. change 0 with (inject_Z 0). rewrite <- Zlt_Qlt.
  destruct l; [congruence | cbn [length]; lia].
Qed.

Lemma sum_app l l' : sum (l ++ l') == sum l + sum l'.
Proof. induction l as [|x l IH]; cbn [app sum]; [|rewrite IH]; ring. Qed.

Lemma sum_sq_app l l' : sum_sq (l ++ l') == sum_sq l + sum_sq l'.
Proof. induction l as [|x l IH]; cbn [app sum_sq]; [|rewrite IH]; ring. Qed.

Lemma square_nonneg (x : Q) : 0 <= x * x.
Proof.
  destruct (Qlt_le_dec x 0) as [H|H].
  - setoid_replace (x * x) with ((- x) * (- x)) using relation Qeq by ring.
    apply Qmult_le_0_compat; lra.
  - apply Qmult_le_0_compat; lra.
Qed.

Lemma sum_sq_nonneg l : 0 <= sum_sq l.
Proof.
  induction l as [|x l IH]; cbn [sum_sq]; [lra|].
  pose proof (square_nonneg x). lra.
Qed.

(** The squared deviations from any [y] add up to a non-negative
    number. *)
Lemma deviation_nonneg l y :
  0 <= sum_sq l - 2 * y * sum l + size l * (y * y).
Proof.
  induction l as [|x l IH].
  - cbn [sum_sq sum].
    setoid_replace (0 - 2 * y * 0 + size [] * (y * y)) with 0
      using relation Qeq by (unfold size; cbn [length Z.of_nat]; ring).
    lra.
  - rewrite size_cons. cbn [sum_sq sum].
    pose proof (square_nonneg (x - y)) as H.
    setoid_replace (x * x + sum_sq l - 2 * y * (x + sum l)
                    + (size l + 1) * (y * y))
      with ((x - y) * (x - y)
            + (sum_sq l - 2 * y * sum l + size l * (y * y)))
      using relation Qeq by ring.
    lra.
Qed.

(** The radicand of the standard deviation is never negative. *)
Lemma radicand_nonneg l :
  l <> [] ->
  0 <= sum_sq l / size l - (sum l / size l) * (sum l / size l).
Proof.
  intros Hl. pose proof (size_pos l Hl) as Hn.
  pose proof (deviation_nonneg l (sum l / size l)) as H.
  assert (Hne : ~ size l == 0) by lra.
  setoid_replace (sum_sq l / size l - (sum l / size l) * (sum l / size l))
    with ((sum_sq l - 2 * (sum l / size l) * sum l
           + size l * ((sum l / size l) * (sum l / size l))) * / size l)
    using relation Qeq by (field; exact Hne).
  apply Qmult_le_0_compat; [exact H|].
  apply Qlt_le_weak, Qinv_lt_0_compat, Hn.
Qed.

Lemma sum_sq_zero l : sum_sq l == 0 -> sum l == 0.
Proof.
  induction l as [|x l IH]; cbn [sum_sq sum]; intros H; [reflexivity|].
  pose proof (square_nonneg x) as Hx. pose proof (sum_sq_nonneg l) as Hl.
  assert (Hx0 : x * x == 0) by lra.
  assert (Hl0 : sum_sq l == 0) by lra.
  apply Qmult_integral in Hx0. rewrite (IH Hl0).
  destruct Hx0 as [E|E]; rewrite E; ring.
Qed.

(** ** Stats._update *)

Lemma Qeq_bool_false (a b : Q) : ~ a == b -> Qeq_bool a b = false.
Proof.
  intros H. destruct (Qeq_bool a b) eqn:E; [|reflexivity].
  apply Qeq_bool_iff in E. contradiction.
Qed.

Lemma Qlt_bool_false (a b : Q) : b <= a -> Qlt_bool a b = false.
Proof.
  intros H. unfold Qlt_bool. apply Qle_bool_iff in H. rewrite H. reflexivity.
Qed.

Lemma Qlt_bool_true (a b : Q) : a < b -> Qlt_bool a b = true.
Proof.
  intros H. unfold Qlt_bool. destruct (Qle_bool b a) eqn:E; [|reflexivity].
  apply Qle_bool_iff in E. lra.
Qed.


(** The state [_update] leaves when neither the division nor the square
    root fails. *)
Lemma _update_returns value mn mx c sq self :
  let n := inject_Z (Stats.count self + c) in
  let t := Stats.total self + value in
  let q := Stats._sum_of_squares self + or_else sq (value * value) in
  ~ n == 0 ->
  0 <= q / n - (t / n) * (t / n) ->
  Stats._update value mn mx c sq self =
  Returns tt
    (Stats.mk
       (if Stats.unset_or_above (Stats.min self) (or_else mn value)
        then Some (or_else mn value) else Stats.min self)
       (if Stats.unset_or_below (Stats.max self) (or_else mx value)
        then Some (or_else mx value) else Stats.max self)
       t (Stats.count self + c)%Z (Some (t / n))
       (Some (Sqrt (q / n - (t / n) * (t / n)))) q).
Proof.
  intros n t q Hn Hr. unfold Stats._update. cbv zeta.
  destruct (Stats.unset_or_above (Stats.min self) (or_else mn value));
    stats_fields;
    destruct (Stats.unset_or_below (Stats.max self) (or_else mx value));
    stats_fields; fold n t q;
    rewrite (Qeq_bool_false _ _ Hn), (Qlt_bool_false _ _ Hr); reflexivity.
Qed.

(** [_update] raises [ZeroDivisionError] exactly when the new count is
    zero. *)
Lemma _update_zero_count value mn mx c sq self :
  (Stats.count self + c)%Z = 0%Z ->
  exists self',
    Stats._update value mn mx c sq self = Raises ZeroDivisionError self'.
Proof.
  intros H. unfold Stats._update. cbv zeta.
  destruct (Stats.unset_or_above (Stats.min self) (or_else mn value));
    stats_fields;
    destruct (Stats.unset_or_below (Stats.max self) (or_else mx value));
    stats_fields; rewrite H;
    change (Qeq_bool (inject_Z 0) 0) with true; cbv iota;
    eexists; reflexivity.
Qed.

Lemma or_else_sum_sq l (q : Q) t :
  q == sum_sq l -> t == sum l -> or_else (Some q) (t * t) == sum_sq l.
Proof.
  intros Hq Ht. unfold or_else, truthy.
  destruct (Qeq_bool q 0) eqn:E; cbn; [|exact Hq].
  apply Qeq_bool_iff in E. rewrite Hq in E.
  rewrite Ht, (sum_sq_zero l E), E. ring.
Qed.

(** [update] always returns on a statistic that holds the sums of some
    samples, and then holds the sums with the new sample added. *)
Lemma update_returns l self x :
  summarises l self ->
  exists self',
    Stats.update x self = Returns tt self' /\
    summarises (l ++ [x]) self' /\
    same_number (Stats.average self') (Some (sum (l ++ [x]) / size (l ++ [x]))) /\
    Stats.min self' =
      (if Stats.unset_or_above (Stats.min self) x
       then Some x else Stats.min self) /\
    Stats.max self' =
      (if Stats.unset_or_below (Stats.max self) x
       then Some x else Stats.max self).
Proof.
  intros (Hc & Ht & Hq).
  assert (Hl : l ++ [x] <> []) by (destruct l; discriminate).
  pose proof (size_pos _ Hl) as Hpos.
  pose proof (radicand_nonneg _ Hl) as Hr.
  assert (En : inject_Z (Stats.count self + 1) == size (l ++ [x])).
  { unfold size. rewrite Hc, length_app. cbn [length].
    rewrite Nat2Z.inj_add. reflexivity. }
  assert (Et : Stats.total self + x == sum (l ++ [x])).
  { rewrite sum_app, Ht. cbn [sum]. ring. }
  assert (Eq : Stats._sum_of_squares self + or_else None (x * x)
               == sum_sq (l ++ [x])).
  { rewrite sum_sq_app, Hq. cbn [sum_sq or_else]. ring. }
  unfold Stats.update. rewrite _update_returns.
  - eexists; split; [reflexivity|]. cbn [or_else].
    repeat split; cbn.
    + rewrite Hc, length_app, Nat2Z.inj_add. reflexivity.
    + exact Et.
    + exact Eq.
    + rewrite Et, En. reflexivity.
  - rewrite En. lra.
  - rewrite Eq, Et, En. exact Hr.
Qed.

(** [merge] of a statistic that holds the sums of [l'] into one that
    holds the sums of [l] returns as soon as one of them is not empty. *)
Lemma merge_returns l l' self stats :
  summarises l self -> summarises l' stats -> l ++ l' <> [] ->
  exists self',
    Stats.merge stats self = Returns tt self' /\
    summarises (l ++ l') self' /\
    same_number (Stats.average self')
                (Some (sum (l ++ l') / size (l ++ l'))) /\
    Stats.min self' =
      (let v := or_else (Stats.min stats) (Stats.total stats) in
       if Stats.unset_or_above (Stats.min self) v
       then Some v else Stats.min self) /\
    Stats.max self' =
      (let v := or_else (Stats.max stats) (Stats.total stats) in
       if Stats.unset_or_below (Stats.max self) v
       then Some v else Stats.max self).
Proof.
  intros (Hc & Ht & Hq) (Hc' & Ht' & Hq') Hl.
  pose proof (size_pos _ Hl) as Hpos.
  pose proof (radicand_nonneg _ Hl) as Hr.
  assert (En : inject_Z (Stats.count self + Stats.count stats)
               == size (l ++ l')).
  { unfold size. rewrite Hc, Hc', length_app, Nat2Z.inj_add. reflexivity. }
  assert (Et : Stats.total self + Stats.total stats == sum (l ++ l')).
  { rewrite sum_app, Ht, Ht'. reflexivity. }
  assert (Eq : Stats._sum_of_squares self
               + or_else (Some (Stats._sum_of_squares stats))
                         (Stats.total stats * Stats.total stats)
               == sum_sq (l ++ l')).
  { rewrite sum_sq_app, Hq, (or_else_sum_sq l'); [reflexivity|exact Hq'|exact Ht']. }
  unfold Stats.merge. rewrite _update_returns.
  - eexists; split; [reflexivity|].
    repeat split; cbn.
    + rewrite Hc, Hc', length_app, Nat2Z.inj_add. reflexivity.
    + exact Et.
    + exact Eq.
    + rewrite Et, En. reflexivity.
  - rewrite En. lra.
  - rewrite Eq, Et, En. exact Hr.
Qed.

Lemma summarises_init : summarises [] Stats.__init__.
Proof. repeat split; reflexivity. Qed.

(** ** Sequences of updates *)

Lemma updates_cons x l s :
  updates (x :: l) s =
  match Stats.update x s with
  | Returns _ s' => updates l s'
  | Raises e s' => Raises e s'
  | Blocks s' => Blocks s'
  end.
Proof. reflexivity. Qed.


(** ** Merging two empty statistics *)

(** C9.  [merge] of a statistic whose [count] is 0 into a statistic whose
    [count] is 0, in particular of one never-updated [Stats] into
    another, reaches [self.total / n] with [n = 0.0] and raises
    [ZeroDivisionError]; [average] and [std_deviation] are left as they
    were. *)
Theorem merge_of_empty_raises_ZeroDivisionError self stats :
  Stats.count self = 0%Z ->
  Stats.count stats = 0%Z ->
  exists self',
    Stats.merge stats self = Raises ZeroDivisionError self' /\
    Stats.count self' = 0%Z /\
    Stats.average self' = Stats.average self /\
    Stats.std_deviation self' = Stats.std_deviation self.
Proof.
  intros Hs Ho. unfold Stats.merge, Stats._update. cbv zeta.
  destruct (Stats.unset_or_above _ _); stats_fields;
    destruct (Stats.unset_or_below _ _); stats_fields;
    rewrite Hs, Ho; change (Qeq_bool (inject_Z (0 + 0)) 0) with true;
    cbv iota; eexists; repeat split; reflexivity.
Qed.

Lemma merge_of_empty_raises_ZeroDivisionError_witness :
  exists self',
    Stats.merge Stats.__init__ Stats.__init__
      = Raises ZeroDivisionError self' /\
    Stats.count self' = 0%Z /\
    Stats.average self' = Stats.average Stats.__init__ /\
    Stats.std_deviation self' = Stats.std_deviation Stats.__init__.
Proof.
  apply (merge_of_empty_raises_ZeroDivisionError Stats.__init__ Stats.__init__);
    reflexivity.
Defined.

(** ** A sample equal to zero

    [not self.min] and [not self.max] hold for an extreme that is 0 as
    they do for one that is [None], and [stats.min or stats.total] takes
    the total for a minimum that is 0. *)

(** C1, at the samples 5, 0, 7 split into 5 and 0, 7.  One [update] per
    sample gives min = 7; the two halves merged, in either direction,
    give min = 5.  (The least sample is 0.) *)
Theorem update_and_merge_differ_on_zero_sample :
  exists whole left right left_right right_left,
    built [5; 0; 7] = Returns tt whole /\
    built [5] = Returns tt left /\
    built [0; 7] = Returns tt right /\
    Stats.merge right left = Returns tt left_right /\
    Stats.merge left right = Returns tt right_left /\
    Stats.min whole = Some 7 /\
    Stats.min left_right = Some 5 /\
    Stats.min right_left = Some 5 /\
    ~ same_stats whole left_right /\
    ~ same_stats whole right_left.
Proof.
  do 5 eexists.
  repeat (split; [vm_compute; reflexivity|]).
  split; intros [H _ _ _ _ _ _]; vm_compute in H; discriminate H.
Qed.

(** C2, at the samples 0, 5.  After the two updates min = 5 and
    average = 5/2: min <= average fails, while count = 2. *)
Theorem min_above_average_after_zero_sample :
  exists s lo avg,
    built [0; 5] = Returns tt s /\
    Stats.min s = Some lo /\
    Stats.average s = Some avg /\
    ~ lo <= avg /\
    Stats.count s = 2%Z.
Proof.
  do 3 eexists.
  repeat (split; [vm_compute; reflexivity|]).
  split; [|reflexivity].
  intros H. vm_compute in H. apply H. reflexivity.
Qed.

(** C3, at A built from the sample 0 and B built from the sample 5.
    Merging B into A gives min = 5, merging A into B gives min = 0. *)
Theorem merge_not_commutative_on_zero_sample :
  exists a b ab ba,
    built [0] = Returns tt a /\
    built [5] = Returns tt b /\
    Stats.merge b a = Returns tt ab /\
    Stats.merge a b = Returns tt ba /\
    Stats.min ab = Some 5 /\
    Stats.min ba = Some 0 /\
    ~ same_stats ab ba.
Proof.
  do 4 eexists.
  repeat (split; [vm_compute; reflexivity|]).
  intros [H _ _ _ _ _ _]. vm_compute in H. discriminate H.
Qed.

(** ** Samples that are never zero

    What the code does establish: as long as no sample is 0, a
    statistic tracks the least and the greatest of its samples, and the
    split law, commutativity and the invariant hold. *)

Lemma least_app_l lo lo' l l' :
  least lo l -> least lo' l' -> lo <= lo' -> least lo (l ++ l').
Proof.
  intros [(x & Hx & Ex) Hl] [_ Hl'] Hle. split.
  - exists x. split; [apply in_or_app; left; exact Hx | exact Ex].
  - intros y Hy. apply in_app_or in Hy. destruct Hy as [Hy|Hy].
    + apply Hl, Hy.
    + apply Qle_trans with lo'; [exact Hle | apply Hl', Hy].
Qed.

Lemma least_app_r lo lo' l l' :
  least lo l -> least lo' l' -> lo' <= lo -> least lo' (l ++ l').
Proof.
  intros [_ Hl] [(x & Hx & Ex) Hl'] Hle. split.
  - exists x. split; [apply in_or_app; right; exact Hx | exact Ex].
  - intros y Hy. apply in_app_or in Hy. destruct Hy as [Hy|Hy].
    + apply Qle_trans with lo; [exact Hle | apply Hl, Hy].
    + apply Hl', Hy.
Qed.

Lemma greatest_app_l hi hi' l l' :
  greatest hi l -> greatest hi' l' -> hi' <= hi -> greatest hi (l ++ l').
Proof.
  intros [(x & Hx & Ex) Hl] [_ Hl'] Hle. split.
  - exists x. split; [apply in_or_app; left; exact Hx | exact Ex].
  - intros y Hy. apply in_app_or in Hy. destruct Hy as [Hy|Hy].
    + apply Hl, Hy.
    + apply Qle_trans with hi'; [apply Hl', Hy | exact Hle].
Qed.

Lemma greatest_app_r hi hi' l l' :
  greatest hi l -> greatest hi' l' -> hi <= hi' -> greatest hi' (l ++ l').
Proof.
  intros [_ Hl] [(x & Hx & Ex) Hl'] Hle. split.
  - exists x. split; [apply in_or_app; right; exact Hx | exact Ex].
  - intros y Hy. apply in_app_or in Hy. destruct Hy as [Hy|Hy].
    + apply Qle_trans with hi; [apply Hl, Hy | exact Hle].
    + apply Hl', Hy.
Qed.

Lemma least_nonzero lo l : nonzero l -> least lo l -> ~ lo == 0.
Proof. intros Hn [(x & Hx & Ex) _] E. apply (Hn x Hx). rewrite Ex. exact E. Qed.

Lemma greatest_nonzero hi l : nonzero l -> greatest hi l -> ~ hi == 0.
Proof. intros Hn [(x & Hx & Ex) _] E. apply (Hn x Hx). rewrite Ex. exact E. Qed.

Lemma truthy_nonzero (q : Q) : ~ q == 0 -> truthy (Some q) = true.
Proof. intros H. unfold truthy. rewrite (Qeq_bool_false _ _ H). reflexivity. Qed.

Lemma nonzero_app l l' : nonzero (l ++ l') -> nonzero l /\ nonzero l'.
Proof.
  intros H. split; intros x Hx; apply H, in_or_app; [left|right]; exact Hx.
Qed.

(** [_update] with arguments that describe the samples [l'], on a
    statistic that tracks [l]. *)
Lemma _update_tracks l l' self value mn mx c sq :
  tracks l self -> nonzero l -> l' <> [] ->
  c = Z.of_nat (length l') ->
  value == sum l' ->
  or_else sq (value * value) == sum_sq l' ->
  least (or_else mn value) l' ->
  greatest (or_else mx value) l' ->
  exists self',
    Stats._update value mn mx c sq self = Returns tt self' /\
    tracks (l ++ l') self'.
Proof.
  intros ((Hc & Ht & Hq) & Hnil & Hcons) Hnz Hl' Ec Ev Esq Hlo Hhi.
  assert (Hl : l ++ l' <> []).
  { intros E. apply app_eq_nil in E. destruct E. contradiction. }
  pose proof (size_pos _ Hl) as Hpos.
  pose proof (radicand_nonneg _ Hl) as Hr.
  assert (En : inject_Z (Stats.count self + c) == size (l ++ l')).
  { unfold size. rewrite Hc, Ec, length_app, Nat2Z.inj_add. reflexivity. }
  assert (Et : Stats.total self + value == sum (l ++ l')).
  { rewrite sum_app, Ht, Ev. reflexivity. }
  assert (Eq : Stats._sum_of_squares self + or_else sq (value * value)
               == sum_sq (l ++ l')).
  { rewrite sum_sq_app, Hq, Esq. reflexivity. }
  rewrite _update_returns.
  2: { rewrite En. lra. }
  2: { rewrite Eq, Et, En. exact Hr. }
  eexists. split; [reflexivity|].
  split; [|split; [contradiction|]].
  { repeat split; cbn.
    - rewrite Hc, Ec, length_app, Nat2Z.inj_add. reflexivity.
    - exact Et.
    - exact Eq. }
  intros _. cbn [Stats.min Stats.max].
  split; [|split; [|split; reflexivity]].
  - destruct l as [|y l0].
    + destruct (Hnil eq_refl) as [-> _]. cbn [Stats.unset_or_above].
      eexists. split; [reflexivity|exact Hlo].
    + destruct (Hcons ltac:(discriminate)) as ((lo & -> & Hleast) & _).
      unfold Stats.unset_or_above.
      rewrite (truthy_nonzero lo (least_nonzero _ _ Hnz Hleast)).
      cbn [negb orb].
      destruct (Qlt_le_dec (or_else mn value) lo) as [Hlt|Hle].
      * rewrite (Qlt_bool_true _ _ Hlt). eexists. split; [reflexivity|].
        apply (least_app_r lo); [assumption..|lra].
      * rewrite (Qlt_bool_false _ _ Hle). eexists. split; [reflexivity|].
        apply (least_app_l lo (or_else mn value)); assumption.
  - destruct l as [|y l0].
    + destruct (Hnil eq_refl) as [_ ->]. cbn [Stats.unset_or_below].
      eexists. split; [reflexivity|exact Hhi].
    + destruct (Hcons ltac:(discriminate)) as (_ & (hi & -> & Hgr) & _).
      unfold Stats.unset_or_below.
      rewrite (truthy_nonzero hi (greatest_nonzero _ _ Hnz Hgr)).
      cbn [negb orb].
      destruct (Qlt_le_dec hi (or_else mx value)) as [Hlt|Hle].
      * rewrite (Qlt_bool_true _ _ Hlt). eexists. split; [reflexivity|].
        apply (greatest_app_r hi); [assumption..|lra].
      * rewrite (Qlt_bool_false _ _ Hle). eexists. split; [reflexivity|].
        apply (greatest_app_l hi (or_else mx value)); assumption.
Qed.

Lemma least_singleton x : least x [x].
Proof.
  split.
  - exists x. split; [left; reflexivity | reflexivity].
  - intros y [<-|[]]. apply Qle_refl.
Qed.

Lemma greatest_singleton x : greatest x [x].
Proof.
  split.
  - exists x. split; [left; reflexivity | reflexivity].
  - intros y [<-|[]]. apply Qle_refl.
Qed.

Lemma tracks_init : tracks [] Stats.__init__.
Proof.
  split; [exact summarises_init|]. split; [split; reflexivity|].
  intros H. contradiction.
Qed.

Lemma update_tracks l self x :
  tracks l self -> nonzero l ->
  exists self',
    Stats.update x self = Returns tt self' /\ tracks (l ++ [x]) self'.
Proof.
  intros H Hnz. unfold Stats.update.
  apply _update_tracks; try assumption; cbn [or_else sum sum_sq length].
  - discriminate.
  - reflexivity.
  - ring.
  - ring.
  - apply least_singleton.
  - apply greatest_singleton.
Qed.

Lemma merge_tracks l l' self stats :
  tracks l self -> tracks l' stats -> nonzero (l ++ l') -> l' <> [] ->
  exists self',
    Stats.merge stats self = Returns tt self' /\ tracks (l ++ l') self'.
Proof.
  intros H ((Hc & Ht & Hq) & _ & Hcons) Hnz Hl'.
  destruct (nonzero_app _ _ Hnz) as [Hnzl Hnzl'].
  destruct (Hcons Hl') as ((lo & Elo & Hlo) & (hi & Ehi & Hhi) & _).
  unfold Stats.merge. apply _update_tracks; try assumption.
  - apply or_else_sum_sq; assumption.
  - rewrite Elo. unfold or_else.
    rewrite (truthy_nonzero lo (least_nonzero _ _ Hnzl' Hlo)). exact Hlo.
  - rewrite Ehi. unfold or_else.
    rewrite (truthy_nonzero hi (greatest_nonzero _ _ Hnzl' Hhi)). exact Hhi.
Qed.







Lemma reachable_summarises l s : reachable l s -> summarises l s.
Proof.
  induction 1 as [|l s x s' _ IH E|l s l' stats s' _ IH _ IH' Hl' E].
  - exact summarises_init.
  - destruct (update_returns l s x IH) as (s1 & E1 & H1 & _). congruence.
  - destruct (merge_returns l l' s stats IH IH') as (s1 & E1 & H1 & _).
    + intros E0. apply app_eq_nil in E0. destruct E0. contradiction.
    + congruence.
Qed.

Lemma reachable_tracks l s : reachable l s -> nonzero l -> tracks l s.
Proof.
  induction 1 as [|l s x s' _ IH E|l s l' stats s' _ IH _ IH' Hl' E];
    intros Hnz.
  - exact tracks_init.
  - destruct (nonzero_app _ _ Hnz) as [Hl _].
    destruct (update_tracks l s x (IH Hl) Hl) as (s1 & E1 & H1). congruence.
  - destruct (nonzero_app _ _ Hnz) as [Hl Hl0].
    destruct (merge_tracks l l' s stats (IH Hl) (IH' Hl0) Hnz Hl')
      as (s1 & E1 & H1).
    congruence.
Qed.


(** The part of the invariant that holds whatever the samples are. *)
Lemma reachable_count l s :
  reachable l s -> l <> [] -> (1 <= Stats.count s)%Z.
Proof.
  intros H Hl. destruct (reachable_summarises l s H) as (Hc & _).
  rewrite Hc. destruct l; [congruence | cbn [length]; lia].
Qed.



(** The scenario of three reports of (min=1, max=1, count=1, total=1,
    sum of squares=1), merged one after the other into an empty
    aggregate. *)
Lemma three_unit_statistics_merge :
  exists unit s1 s2 s3,
    built [1] = Returns tt unit /\
    Stats.min unit = Some 1 /\ Stats.max unit = Some 1 /\
    Stats.count unit = 1%Z /\ Stats.total unit = 1 /\
    Stats._sum_of_squares unit = 1 /\
    Stats.merge unit Stats.__init__ = Returns tt s1 /\
    Stats.merge unit s1 = Returns tt s2 /\
    Stats.merge unit s2 = Returns tt s3 /\
    Stats.min s3 = Some 1 /\ Stats.max s3 = Some 1 /\
    Stats.count s3 = 3%Z /\ Stats.total s3 = 3 /\
    same_number (Stats.average s3) (Some 1) /\
    same_root (Stats.std_deviation s3) (Some (Sqrt 0)).
Proof.
  do 4 eexists.
  split; [vm_compute; reflexivity|].
  do 5 (split; [reflexivity|]).
  do 3 (split; [vm_compute; reflexivity|]).
  repeat split.
Qed.

(** ** Running a test with no minion visible *)



(** C7.  With no minion of the role in the registry (key absent or
    count 0), [_run_test] and [run_notification_test] print their
    no-clients line and return -1; nothing is cast and the controller,
    [_result_count] and both aggregates included, is left as it was. *)
Theorem no_minion_visible_returns_minus_one
    self out count data verbose arrivals :
  (forall meth,
     none_visible RPC_CLIENT self ->
     RPCController._run_test meth count data verbose arrivals (self, out)
     = Returns (Some (-1)%Z) (self, out ++ [Line "No RPC clients visible"]))
  /\
  (forall severity,
     none_visible NOTIFIER self ->
     NotifyController.run_notification_test
       count data severity verbose arrivals (self, out)
     = Returns (Some (-1)%Z)
               (self, out ++ [Line "No notifier clients visible"])).
Proof.
  split; intros x [H|H];
    unfold RPCController._run_test, NotifyController.run_notification_test;
    step; rewrite H; step; reflexivity.
Qed.

Lemma no_minion_visible_returns_minus_one_witness :
  RPCController._run_test "test_call" 1 "X" false []
    (RPCController.__init__ None [RPC_SERVER], [])
  = Returns (Some (-1)%Z)
      (RPCController.__init__ None [RPC_SERVER],
       [] ++ [Line "No RPC clients visible"]) /\
  NotifyController.run_notification_test 1 "X" "debug" false []
    (NotifyController.__init__ None [RPC_SERVER], [])
  = Returns (Some (-1)%Z)
      (NotifyController.__init__ None [RPC_SERVER],
       [] ++ [Line "No notifier clients visible"]).
Proof.
  split.
  - apply (proj1 (no_minion_visible_returns_minus_one
                    (RPCController.__init__ None [RPC_SERVER]) []
                    1%Z "X" false [])).
    left. vm_compute. reflexivity.
  - apply (proj2 (no_minion_visible_returns_minus_one
                    (NotifyController.__init__ None [RPC_SERVER]) []
                    1%Z "X" false [])).
    left. vm_compute. reflexivity.
Defined.

(** ** Dispatching a test *)

Lemma Zeqb_false_of_ne (n : Z) : n <> 0%Z -> (n =? 0)%Z = false.
Proof. intros H. apply Z.eqb_neq, H. Qed.

(** With a minion visible, [_run_test] casts the test from the
    [dispatched] controller and waits there; what it does next depends
    only on how the wait ends. *)
Lemma _run_test_after_cast self out meth count data verbose arrivals n :
  _minions self !! RPC_CLIENT = Some n -> n <> 0%Z ->
  RPCController._run_test meth count data verbose arrivals (self, out) =
  let out' := out ++ [Cast meth count data None verbose] in
  match wait RPCController.handle arrivals (dispatched self) with
  | Returns true self' =>
      match _print_stats (self', out') with
      | Returns _ w => Returns None w
      | Raises e w => Raises e w
      | Blocks w => Blocks w
      end
  | Returns false self' =>
      Returns None (self', out' ++ [Line (meth ++ " test timed out!")])
  | Raises e self' => Raises e (self', out')
  | Blocks self' => Blocks (self', out')
  end.
Proof.
  intros H Hn. unfold RPCController._run_test. step.
  rewrite H, (Zeqb_false_of_ne n Hn). step. unfold dispatched.
  destruct (wait RPCController.handle arrivals _) as [[|] self'|e self'|self'];
    reflexivity.
Qed.

Lemma run_notification_test_after_cast
    self out count data severity verbose arrivals n :
  _minions self !! NOTIFIER = Some n -> n <> 0%Z ->
  NotifyController.run_notification_test
    count data severity verbose arrivals (self, out) =
  let out' := out ++ [Cast "test_notify" count data (Some severity) verbose] in
  match wait NotifyController.handle arrivals (dispatched self) with
  | Returns true self' =>
      match _print_stats (self', out') with
      | Returns _ w => Returns None w
      | Raises e w => Raises e w
      | Blocks w => Blocks w
      end
  | Returns false self' => Raises NameError (self', out')
  | Raises e self' => Raises e (self', out')
  | Blocks self' => Blocks (self', out')
  end.
Proof.
  intros H Hn. unfold NotifyController.run_notification_test. step.
  rewrite H, (Zeqb_false_of_ne n Hn). step. unfold dispatched.
  destruct (wait NotifyController.handle arrivals _)
    as [[|] self'|e self'|self']; reflexivity.
Qed.

(** [client_pong] touches the registry only. *)
Lemma client_pong_keeps kind self :
  let self' := state_of (_Controller.client_pong kind self) in
  _throughput self' = _throughput self /\
  _latency self' = _latency self /\
  _done self' = _done self /\
  _timeout self' = _timeout self /\
  _result_count self' = _result_count self.
Proof.
  unfold _Controller.client_pong, getitem. step.
  destruct (_minions self !! kind) eqn:E.
  - rewrite E. step. repeat split.
  - rewrite lookup_insert_eq. step. repeat split.
Qed.

Lemma pongs_keep_aggregates pongs self :
  let self' :=
    fold_left (fun c k => state_of (_Controller.client_pong k c)) pongs self in
  _throughput self' = _throughput self /\ _latency self' = _latency self.
Proof.
  revert self. induction pongs as [|k pongs IH]; intros self; cbn [fold_left].
  - split; reflexivity.
  - destruct (IH (state_of (_Controller.client_pong k self))) as [Ht Hl].
    destruct (client_pong_keeps k self) as (Ht' & Hl' & _).
    cbv zeta in *. rewrite Ht, Hl. split; assumption.
Qed.

(** ** The aggregates across runs *)




(** ** A run that times out *)


(** C6, on [NotifyController].  When the wait of
    [run_notification_test] ends without the completion signal, the
    method raises [NameError] ([meth] is not bound there): after the cast
    nothing is printed, neither a time-out line nor an aggregate. *)
Theorem notification_timeout_raises_NameError
    self out count data severity verbose arrivals n self' :
  _minions self !! NOTIFIER = Some n -> n <> 0%Z ->
  wait NotifyController.handle arrivals (dispatched self)
    = Returns false self' ->
  NotifyController.run_notification_test
    count data severity verbose arrivals (self, out)
  = Raises NameError
      (self', out ++ [Cast "test_notify" count data (Some severity) verbose]).
Proof.
  intros H Hn Hw.
  rewrite (run_notification_test_after_cast _ _ _ _ _ _ _ _ H Hn).
  cbv zeta. rewrite Hw. reflexivity.
Qed.

Lemma notification_timeout_raises_NameError_witness :
  exists self',
    wait NotifyController.handle []
         (dispatched (NotifyController.__init__ (Some 5%Z) [NOTIFIER]))
      = Returns false self' /\
    NotifyController.run_notification_test 1 "X" "debug" false []
      (NotifyController.__init__ (Some 5%Z) [NOTIFIER], [])
    = Raises NameError
        (self', [Cast "test_notify" 1%Z "X" (Some "debug") false]).
Proof.
  eexists. split; [vm_compute; reflexivity|].
  apply (notification_timeout_raises_NameError
           (NotifyController.__init__ (Some 5%Z) [NOTIFIER]) []
           1%Z "X" "debug" false [] 1%Z).
  - vm_compute. reflexivity.
  - discriminate.
  - vm_compute. reflexivity.
Defined.

(** ** The completion signal *)

(** Where [client_result] can end, by the first thing that fails. *)
Lemma client_result_of_cases role r self :
  let o := client_result_of role r self in
  match _result_count self with
  | None => o = Raises AttributeError self
  | Some n =>
      let counted := set_result_count (n + 1) self in
      match Stats.update (throughput r) (_throughput self) with
      | Returns _ t =>
          match Stats.merge (latency r) (_latency self) with
          | Returns _ l =>
              let merged := set_latency l (set_throughput t counted) in
              match _minions self !! role with
              | None => o = Raises KeyError merged
              | Some expected =>
                  o = Returns tt
                        (if (n + 1 =? expected)%Z
                         then set_done true merged else merged)
              end
          | Raises e l =>
              o = Raises e (set_latency l (set_throughput t counted))
          | Blocks l =>
              o = Blocks (set_latency l (set_throughput t counted))
          end
      | Raises e t => o = Raises e (set_throughput t counted)
      | Blocks t => o = Blocks (set_throughput t counted)
      end
  end.
Proof.
  unfold client_result_of, getitem. step.
  destruct (_result_count self) as [n|]; step; [|reflexivity].
  change (_throughput (set_result_count (n + 1) self))
    with (_throughput self).
  destruct (Stats.update (throughput r) (_throughput self))
    as [[] t|e t|t]; try reflexivity.
  change (_latency (set_throughput t (set_result_count (n + 1) self)))
    with (_latency self).
  destruct (Stats.merge (latency r) (_latency self))
    as [[] l|e l|l]; try reflexivity.
  change (_minions (set_latency l (set_throughput t
                      (set_result_count (n + 1) self))))
    with (_minions self).
  destruct (_minions self !! role) as [expected|]; step; [|reflexivity].
  destruct (n + 1 =? expected)%Z; reflexivity.
Qed.

Lemma client_result_of_sets_done role r self :
  _done self = false ->
  _done (state_of (client_result_of role r self)) = true ->
  exists n,
    _result_count self = Some n /\
    _minions self !! role = Some (n + 1)%Z.
Proof.
  intros Hd. pose proof (client_result_of_cases role r self) as H.
  cbv zeta in H.
  destruct (_result_count self) as [n|];
    [|rewrite H; cbn; congruence].
  destruct (Stats.update (throughput r) (_throughput self))
    as [[] t|e t|t]; try (rewrite H; cbn; congruence).
  destruct (Stats.merge (latency r) (_latency self))
    as [[] l|e l|l]; try (rewrite H; cbn; congruence).
  destruct (_minions self !! role) as [expected|];
    [|rewrite H; cbn; congruence].
  rewrite H. destruct (n + 1 =? expected)%Z eqn:E; cbn; [|congruence].
  intros _. exists n. apply Z.eqb_eq in E. subst expected.
  split; reflexivity.
Qed.

Lemma client_result_of_keeps_timeout role r self :
  _timeout (state_of (client_result_of role r self)) = _timeout self.
Proof.
  pose proof (client_result_of_cases role r self) as H. cbv zeta in H.
  destruct (_result_count self) as [n|]; [|rewrite H; reflexivity].
  destruct (Stats.update (throughput r) (_throughput self))
    as [[] t|e t|t]; try (rewrite H; reflexivity).
  destruct (Stats.merge (latency r) (_latency self))
    as [[] l|e l|l]; try (rewrite H; reflexivity).
  destruct (_minions self !! role) as [expected|];
    [|rewrite H; reflexivity].
  rewrite H. destruct (n + 1 =? expected)%Z; reflexivity.
Qed.

Lemma handle_keeps_timeout role m self :
  _timeout (state_of (handle_for role m self)) = _timeout self.
Proof.
  destruct m as [kind|r]; cbn [handle_for].
  - apply (client_pong_keeps kind self).
  - apply client_result_of_keeps_timeout.
Qed.

(** While no result meets the registry's count, [_done] stays clear. *)
Lemma never_equal_keeps_done_clear role arrivals : forall self,
  _done self = false ->
  never_equal role (handle_for role) arrivals self ->
  exists self',
    wait (handle_for role) arrivals self
    = (match _timeout self with
       | Some _ => Returns false self'
       | None => Blocks self'
       end) /\
    _done self' = false.
Proof.
  induction arrivals as [|m arrivals IH]; intros self Hd Hne;
    cbn [wait]; rewrite Hd.
  - exists self. split; [|exact Hd]. destruct (_timeout self); reflexivity.
  - destruct Hne as [Hm Hne].
    rewrite <- (handle_keeps_timeout role m self).
    apply IH; [|exact Hne].
    destruct m as [kind|r]; cbn [handle_for].
    + destruct (client_pong_keeps kind self) as (_ & _ & H & _).
      cbv zeta in H. rewrite H. exact Hd.
    + destruct (_done (state_of (client_result_of role r self))) eqn:E;
        [|reflexivity].
      destruct (client_result_of_sets_done role r self Hd E) as (n & Hn & He).
      destruct (Hm n Hn He).
Qed.

(** C10.  [client_result] sets the completion event only when the
    count of results it has just incremented equals the count the
    registry then holds for the role.  If no result handled during the
    wait meets that equality, the event is never set, and with no timeout
    [_run_test] blocks in its wait: it prints nothing after the cast and
    does not return. *)
Theorem completion_needs_exact_count :
  (forall role r self,
     _done self = false ->
     _done (state_of (client_result_of role r self)) = true ->
     exists n,
       _result_count self = Some n /\
       _minions self !! role = Some (n + 1)%Z) /\
  (forall self out meth count data verbose arrivals n,
     _minions self !! RPC_CLIENT = Some n -> n <> 0%Z ->
     _timeout self = None ->
     never_equal RPC_CLIENT RPCController.handle arrivals (dispatched self) ->
     exists self',
       RPCController._run_test meth count data verbose arrivals (self, out)
       = Blocks (self', out ++ [Cast meth count data None verbose]) /\
       _done self' = false).
Proof.
  split; [exact client_result_of_sets_done|].
  intros self out meth count data verbose arrivals n H Hn Ht Hne.
  rewrite (_run_test_after_cast _ _ _ _ _ _ _ _ H Hn). cbv zeta.
  destruct (never_equal_keeps_done_clear RPC_CLIENT arrivals
              (dispatched self) eq_refl Hne) as (self' & Hw & Hd).
  change (_timeout (dispatched self)) with (_timeout self) in Hw.
  rewrite Ht in Hw.
  change (handle_for RPC_CLIENT) with RPCController.handle in Hw.
  rewrite Hw. exists self'. split; [reflexivity|exact Hd].
Qed.

(** One RPC client was recorded at dispatch; a late pong raises the
    recorded count to 2 before the only result arrives. *)
Lemma completion_needs_exact_count_witness :
  exists self',
    RPCController._run_test "test_call" 1 "X" false
      [Client_pong RPC_CLIENT;
       Client_result (mk_results (state_of (built [2])) 100 1%Z)]
      (RPCController.__init__ None [RPC_CLIENT], [])
    = Blocks (self', [] ++ [Cast "test_call" 1%Z "X" None false]) /\
    _done self' = false.
Proof.
  apply (proj2 completion_needs_exact_count
               (RPCController.__init__ None [RPC_CLIENT]) []
               "test_call" 1%Z "X" false
               [Client_pong RPC_CLIENT;
                Client_result (mk_results (state_of (built [2])) 100 1%Z)]
               1%Z).
  - vm_compute. reflexivity.
  - discriminate.
  - reflexivity.
  - cbn [never_equal]. split; [exact I|]. split; [|exact I].
    intros n Hn. vm_compute in Hn. injection Hn as <-.
    vm_compute. discriminate.
Defined.

(** ** Handling a report *)


Lemma new_controller_consistent timeout pongs :
  let self := dispatched (RPCController.__init__ timeout pongs) in
  consistent (_throughput self) /\ consistent (_latency self).
Proof.
  destruct (pongs_keep_aggregates pongs
              (mk_Controller ∅ 0%Z Stats.__init__ Stats.__init__ false
                             timeout None)) as [Ht Hl].
  cbv zeta in *. unfold dispatched, RPCController.__init__.
  cbn [_throughput _latency set_done set_result_count].
  rewrite Ht, Hl. split; exists []; exact summarises_init.
Qed.





(** ** The minion test loops *)

Lemma samples_succ clock first n :
  samples clock first (S n)
  = elapsed_ms clock first 0 :: samples clock (first + 2) n.
Proof.
  unfold samples. cbn [seq map]. f_equal.
  rewrite <- seq_shift, map_map. apply map_ext. intros k.
  unfold elapsed_ms.
  replace (first + 2 * S k)%nat with (first + 2 + 2 * k)%nat by lia.
  reflexivity.
Qed.

Section MinionLoopFacts.

Variable clock : nat -> Q.
Variable op : nat -> option exn.
Hypothesis op_returns : forall k, op k = None.

Lemma iteration_returns latency self l :
  summarises l latency ->
  exists latency',
    Stats.update (elapsed_ms clock (readings self) 0) latency
      = Returns tt latency' /\
    summarises (l ++ [elapsed_ms clock (readings self) 0]) latency' /\
    iteration clock op latency self
    = Returns latency'
        (mk_Minion (readings self + 2) (S (operations self)) (sent self)).
Proof.
  intros H.
  destruct (update_returns l latency (elapsed_ms clock (readings self) 0) H)
    as (latency' & E & H' & _).
  exists latency'. split; [exact E|]. split; [exact H'|].
  unfold iteration, now, func, local. step.
  cbn [readings operations sent]. rewrite op_returns.
  unfold elapsed_ms in E.
  replace (readings self + 2 * 0 + 1)%nat with (S (readings self)) in E
    by lia.
  replace (readings self + 2 * 0)%nat with (readings self) in E by lia.
  cbn [readings operations sent]. rewrite E. step.
  replace (readings self + 2)%nat with (S (S (readings self))) by lia.
  reflexivity.
Qed.

(** With [m + 1] iterations to go, the loop makes them and stops. *)
Lemma while_not_stop_returns m : forall fuel count latency calls self l,
  summarises l latency ->
  (0 <= calls)%Z ->
  (calls + Z.of_nat (S m) = count)%Z ->
  (S m <= fuel)%nat ->
  exists latency',
    updates (samples clock (readings self) (S m)) latency
      = Returns tt latency' /\
    while_not_stop clock op fuel count latency calls self
    = Some (Returns (latency', count)
              (mk_Minion (readings self + 2 * S m)
                         (operations self + S m) (sent self))).
Proof.
  induction m as [|m IH]; intros fuel count latency calls self l H Hc Hn Hf;
    (destruct fuel as [|fuel]; [lia|]);
    destruct (iteration_returns latency self l H) as (l1 & E1 & H1 & I1);
    rewrite samples_succ, updates_cons, E1; cbn [while_not_stop];
    rewrite I1.
  - exists l1. split; [reflexivity|].
    unfold reached.
    replace (calls + 1)%Z with count by lia.
    replace (count =? 0)%Z with false by (symmetry; apply Z.eqb_neq; lia).
    rewrite Z.leb_refl. cbn [negb andb].
    replace (readings self + 2 * 1)%nat with (readings self + 2)%nat by lia.
    replace (operations self + 1)%nat with (S (operations self)) by lia.
    reflexivity.
  - unfold reached.
    replace (count <=? calls + 1)%Z with false
      by (symmetry; apply Z.leb_gt; lia).
    rewrite andb_false_r.
    destruct (IH fuel count l1 (calls + 1)%Z
                (mk_Minion (readings self + 2) (S (operations self))
                           (sent self)) _ H1)
      as (latency' & E' & W'); try lia.
    cbn [readings operations sent] in E', W'.
    exists latency'. split; [exact E'|]. rewrite W'.
    replace (readings self + 2 + 2 * S m)%nat
      with (readings self + 2 * S (S m))%nat by lia.
    replace (S (operations self) + S m)%nat
      with (operations self + S (S m))%nat by lia.
    reflexivity.
Qed.


End MinionLoopFacts.




(** ** More on Stats *)

(** Whatever [_update] returns has its two derived fields computed from
    its sums, and both extremes set. *)
Lemma _update_result value mn mx c sq self self' :
  Stats._update value mn mx c sq self = Returns tt self' ->
  derived self' /\
  (exists lo, Stats.min self' = Some lo) /\
  (exists hi, Stats.max self' = Some hi) /\
  0 <= Stats._sum_of_squares self' / inject_Z (Stats.count self')
       - (Stats.total self' / inject_Z (Stats.count self'))
         * (Stats.total self' / inject_Z (Stats.count self')).
Proof.
  unfold Stats._update. cbv zeta.
  destruct (Stats.unset_or_above (Stats.min self) (or_else mn value)) eqn:Ea;
    stats_fields;
    destruct (Stats.unset_or_below (Stats.max self) (or_else mx value)) eqn:Eb;
    stats_fields;
    (destruct (Qeq_bool _ 0); [discriminate|]);
    match goal with
    | |- context [Qlt_bool ?r 0] => destruct (Qlt_bool r 0) eqn:Er
    end; try discriminate;
    intros E; injection E as <-; stats_fields;
    (split; [split; reflexivity|]);
    (split; [|split]);
    try (eexists; reflexivity);
    try (destruct (Stats.min self); [eexists; reflexivity | discriminate Ea]);
    try (destruct (Stats.max self); [eexists; reflexivity | discriminate Eb]);
    unfold Qlt_bool in Er; apply negb_false_iff, Qle_bool_iff in Er; exact Er.
Qed.


(** Two statistics with the same sums have the same derived fields. *)
Lemma same_sums_same_derived l a b :
  summarises l a -> summarises l b -> derived a -> derived b ->
  Stats.count a = Stats.count b /\
  Stats.total a == Stats.total b /\
  Stats._sum_of_squares a == Stats._sum_of_squares b /\
  same_number (Stats.average a) (Stats.average b) /\
  same_root (Stats.std_deviation a) (Stats.std_deviation b).
Proof.
  intros (Hc & Ht & Hq) (Hc' & Ht' & Hq') [Ea Es] [Ea' Es'].
  assert (Ecount : Stats.count a = Stats.count b) by congruence.
  assert (Etotal : Stats.total a == Stats.total b) by (rewrite Ht, Ht'; reflexivity).
  assert (Esq : Stats._sum_of_squares a == Stats._sum_of_squares b)
    by (rewrite Hq, Hq'; reflexivity).
  repeat (split; [assumption|]). split.
  - rewrite Ea, Ea'. cbn. rewrite Ecount, Etotal. reflexivity.
  - rewrite Es, Es'. cbn. rewrite Ecount, Etotal, Esq. reflexivity.
Qed.






Lemma reachable_two_three_five :
  reachable ([2; 3] ++ [5]) (state_of (built [2; 3; 5])).
Proof.
  apply (reach_update [2; 3] (state_of (built [2; 3])) 5);
    [|vm_compute; reflexivity].
  apply (reach_update [2] (state_of (built [2])) 3); [|vm_compute; reflexivity].
  apply (reach_update [] Stats.__init__ 2); [exact reach_init|].
  vm_compute. reflexivity.
Qed.












(** X7.  Merging a never-updated statistic into a statistic of positive
    samples is not neutral: it returns with min = 0, while max, count,
    total and average are those of the receiver. *)
Theorem merge_of_empty_lowers_min l self :
  reachable l self -> l <> [] -> (forall x, In x l -> 0 < x) ->
  exists self',
    Stats.merge Stats.__init__ self = Returns tt self' /\
    Stats.min self' = Some 0 /\
    Stats.max self' = Stats.max self /\
    Stats.count self' = Stats.count self /\
    Stats.total self' == Stats.total self /\
    same_number (Stats.average self') (Stats.average self).
Proof.
  intros Hr Hl Hpos.
  assert (Hnz : nonzero l) by (intros x Hx E; specialize (Hpos x Hx); lra).
  destruct (reachable_tracks l self Hr Hnz) as (Hs & _ & Hcons).
  destruct (Hcons Hl)
    as ((lo & Elo & (x & Hx & Ex) & _) & (hi & Ehi & (y & Hy & Ey) & _) & Dself).
  assert (Hlo : 0 < lo) by (rewrite <- Ex; apply Hpos, Hx).
  assert (Hhi : 0 < hi) by (rewrite <- Ey; apply Hpos, Hy).
  destruct (merge_returns l [] self Stats.__init__ Hs summarises_init)
    as (self' & E & Hs' & _ & Hmin & Hmax).
  { rewrite app_nil_r. exact Hl. }
  exists self'. split; [exact E|].
  rewrite app_nil_r in Hs'.
  unfold Stats.merge in E.
  destruct (_update_result _ _ _ _ _ _ _ E) as (Dself' & _).
  destruct (same_sums_same_derived _ _ _ Hs' Hs Dself' Dself)
    as (Ec & Etot & _ & Eavg & _).
  cbn in Hmin, Hmax. rewrite Elo in Hmin. rewrite Ehi in Hmax.
  unfold Stats.unset_or_above in Hmin. unfold Stats.unset_or_below in Hmax.
  rewrite (Qlt_bool_true 0 lo Hlo), orb_true_r in Hmin.
  rewrite (truthy_nonzero hi), (Qlt_bool_false hi 0) in Hmax; [|lra|lra].
  cbn in Hmax. rewrite Ehi.
  repeat (split; [assumption|]). exact Eavg.
Qed.

Lemma merge_of_empty_lowers_min_witness :
  exists self',
    Stats.merge Stats.__init__ (state_of (built [2; 3; 5])) = Returns tt self' /\
    Stats.min self' = Some 0 /\
    Stats.max self' = Stats.max (state_of (built [2; 3; 5])) /\
    Stats.count self' = Stats.count (state_of (built [2; 3; 5])) /\
    Stats.total self' == Stats.total (state_of (built [2; 3; 5])) /\
    same_number (Stats.average self')
                (Stats.average (state_of (built [2; 3; 5]))).
Proof.
  apply (merge_of_empty_lowers_min ([2; 3] ++ [5]) _ reachable_two_three_five).
  - discriminate.
  - intros x [<-|[<-|[<-|[]]]]; reflexivity.
Defined.

(** ** The registry *)

Lemma client_pong_registry kind k self :
  let self' := state_of (_Controller.client_pong k self) in
  _minions self' !! kind
  = (if decide (k = kind)
     then Some (default 0%Z (_minions self !! kind) + 1)%Z
     else _minions self !! kind) /\
  _total_minions self' = (_total_minions self + 1)%Z.
Proof.
  unfold _Controller.client_pong, getitem. step.
  destruct (_minions self !! k) as [n|] eqn:E.
  - rewrite E. step. cbn [state_of _minions _total_minions set_minions
                             set_total_minions].
    split; [|reflexivity].
    rewrite lookup_insert. destruct (decide (k = kind)) as [<-|]; [|reflexivity].
    rewrite E. reflexivity.
  - rewrite lookup_insert_eq. step.
    cbn [state_of _minions _total_minions set_minions set_total_minions].
    split; [|reflexivity].
    rewrite lookup_insert. destruct (decide (k = kind)) as [<-|].
    + rewrite E. reflexivity.
    + rewrite lookup_insert_ne by assumption. reflexivity.
Qed.

Lemma pongs_registry kind pongs : forall self,
  let self' :=
    fold_left (fun c k => state_of (_Controller.client_pong k c)) pongs self in
  _minions self' !! kind
  = (match count_occ String.string_dec pongs kind with
     | O => _minions self !! kind
     | S n => Some (default 0%Z (_minions self !! kind) + Z.of_nat (S n))%Z
     end) /\
  _total_minions self' = (_total_minions self + Z.of_nat (length pongs))%Z.
Proof.
  induction pongs as [|k pongs IH]; intros self; cbn [fold_left].
  - cbn. split; [reflexivity|lia].
  - destruct (IH (state_of (_Controller.client_pong k self))) as [Hm Ht].
    destruct (client_pong_registry kind k self) as [Hm1 Ht1].
    cbv zeta in *. rewrite Hm, Ht, Hm1, Ht1. clear Hm Ht Hm1 Ht1 IH.
    cbn [count_occ length]. split; [|lia].
    destruct (String.string_dec k kind) as [->|Hne].
    + rewrite decide_True by reflexivity.
      destruct (count_occ String.string_dec pongs kind) as [|n];
        destruct (_minions self !! kind); cbn; f_equal; lia.
    + rewrite decide_False by assumption. reflexivity.
Qed.

(** X8.  After the pongs handled during the discovery window, the
    registry holds for every role the number of pongs of that role (no
    entry for a role that did not answer) and [_total_minions] is the
    number of pongs; so the registry does not depend on the order in
    which the pongs arrive. *)
Theorem registry_counts_pongs timeout pongs :
  (forall kind,
     _minions (RPCController.__init__ timeout pongs) !! kind
     = match count_occ String.string_dec pongs kind with
       | O => None
       | S n => Some (Z.of_nat (S n))
       end) /\
  _total_minions (RPCController.__init__ timeout pongs)
  = Z.of_nat (length pongs) /\
  (forall pongs',
     Permutation pongs pongs' ->
     _minions (RPCController.__init__ timeout pongs')
     = _minions (RPCController.__init__ timeout pongs)).
Proof.
  assert (H : forall ps kind,
             _minions (RPCController.__init__ timeout ps) !! kind
             = match count_occ String.string_dec ps kind with
               | O => None
               | S n => Some (Z.of_nat (S n))
               end).
  { intros ps kind. unfold RPCController.__init__.
    destruct (pongs_registry kind ps
                (mk_Controller ∅ 0%Z Stats.__init__ Stats.__init__ false
                               timeout None)) as [Hm _].
    cbv zeta in Hm. rewrite Hm. cbn [_minions]. rewrite lookup_empty.
    destruct (count_occ String.string_dec ps kind); reflexivity. }
  split; [apply H|]. split.
  - unfold RPCController.__init__.
    destruct (pongs_registry "" pongs
                (mk_Controller ∅ 0%Z Stats.__init__ Stats.__init__ false
                               timeout None)) as [_ Ht].
    cbv zeta in Ht. rewrite Ht. reflexivity.
  - intros pongs' Hp. apply map_eq. intros kind. rewrite !H.
    rewrite (Permutation_count_occ String.string_dec pongs pongs') in Hp.
    rewrite (Hp kind). reflexivity.
Qed.

Lemma registry_counts_pongs_witness :
  _minions (RPCController.__init__ None [RPC_SERVER; RPC_CLIENT; RPC_CLIENT])
  = _minions (RPCController.__init__ None [RPC_CLIENT; RPC_SERVER; RPC_CLIENT]).
Proof.
  apply (proj2 (proj2 (registry_counts_pongs None
                         [RPC_CLIENT; RPC_SERVER; RPC_CLIENT]))).
  apply perm_swap.
Defined.

(** ** Runs whose reports are all well formed *)










(** ** Loops whose operation fails, or whose count is negative *)

Lemma iteration_passes clock op latency self l :
  op (operations self) = None ->
  summarises l latency ->
  exists latency',
    summarises (l ++ [elapsed_ms clock (readings self) 0]) latency' /\
    iteration clock op latency self
    = Returns latency'
        (mk_Minion (readings self + 2) (S (operations self)) (sent self)).
Proof.
  intros Hop H.
  destruct (update_returns l latency (elapsed_ms clock (readings self) 0) H)
    as (latency' & E & H' & _).
  exists latency'. split; [exact H'|].
  unfold iteration, now, func, local. step.
  cbn [readings operations sent]. rewrite Hop.
  unfold elapsed_ms in E.
  replace (readings self + 2 * 0 + 1)%nat with (S (readings self)) in E
    by lia.
  replace (readings self + 2 * 0)%nat with (readings self) in E by lia.
  cbn [readings operations sent]. rewrite E. step.
  replace (readings self + 2)%nat with (S (S (readings self))) by lia.
  reflexivity.
Qed.





(** X12.  Asked for a negative [count], the loop stops after its first
    iteration ([count] is true and [calls >= count] holds at once): one
    operation, and one report with [calls = 1]. *)
Theorem negative_count_runs_once
    clock op has_severity count verbose data severity self :
  (count < 0)%Z ->
  op (operations self) = None ->
  has_severity severity = true ->
  let elapsed := clock (readings self + 3)%nat - clock (readings self) in
  ~ elapsed == 0 ->
  exists latency,
    built [elapsed_ms clock (S (readings self)) 0] = Returns tt latency /\
    forall fuel, (1 <= fuel)%nat ->
      let ended :=
        Some (Returns tt
                (mk_Minion (readings self + 4) (operations self + 1)
                   (sent self
                    ++ [Cast_result
                          (mk_results latency (1 / elapsed) 1%Z)]))) in
      _run_rpc_test clock op fuel count verbose self = ended /\
      test_notify clock op has_severity fuel count data severity verbose self
      = ended.
Proof.
  intros Hc Hop Hs elapsed He.
  destruct (iteration_passes clock op Stats.__init__
              (mk_Minion (S (readings self)) (operations self) (sent self))
              [] Hop summarises_init) as (latency & _ & I).
  cbn [readings operations sent] in I.
  assert (Eb : built [elapsed_ms clock (S (readings self)) 0]
               = Returns tt latency).
  { unfold built. rewrite updates_cons.
    unfold iteration, now, func, local in I. revert I. step.
    cbn [readings operations sent]. rewrite Hop. step.
    cbn [readings operations sent]. unfold elapsed_ms.
    replace (S (readings self) + 2 * 0 + 1)%nat with (S (S (readings self)))
      by lia.
    replace (S (readings self) + 2 * 0)%nat with (S (readings self)) by lia.
    destruct (Stats.update _ Stats.__init__) as [[] s|e0 s|s]; step;
      intros I; try discriminate I.
    injection I as ->. reflexivity. }
  exists latency. split; [exact Eb|]. intros fuel Hf ended.
  destruct fuel as [|fuel]; [lia|].
  unfold _run_rpc_test, test_notify, now, run_loop. rewrite Hs. cbn [negb].
  cbn [while_not_stop]. rewrite I.
  assert (Hr : reached count (0 + 1) = true).
  { unfold reached.
    replace (count =? 0)%Z with false by (symmetry; apply Z.eqb_neq; lia).
    replace (count <=? 0 + 1)%Z with true by (symmetry; apply Z.leb_le; lia).
    reflexivity. }
  rewrite Hr. unfold report, now, controller_cast. step.
  cbn [readings operations sent].
  replace (S (readings self) + 2)%nat with (readings self + 3)%nat by lia.
  fold elapsed. rewrite (Qeq_bool_false _ _ He). unfold ended.
  replace (S (readings self + 3)) with (readings self + 4)%nat by lia.
  replace (S (operations self)) with (operations self + 1)%nat by lia.
  split; reflexivity.
Qed.

Lemma negative_count_runs_once_witness :
  exists latency,
    built [elapsed_ms (fun k => inject_Z (Z.of_nat k)) 1 0]
    = Returns tt latency /\
    forall fuel, (1 <= fuel)%nat ->
      _run_rpc_test (fun k => inject_Z (Z.of_nat k)) (fun _ => None)
                    fuel (-7) false (mk_Minion 0 0 [])
      = Some (Returns tt
                (mk_Minion 4 1
                   [Cast_result (mk_results latency (1 / (3 - 0)) 1%Z)])) /\
      test_notify (fun k => inject_Z (Z.of_nat k)) (fun _ => None)
                  (fun _ => true) fuel (-7) "X" "debug" false
                  (mk_Minion 0 0 [])
      = Some (Returns tt
                (mk_Minion 4 1
                   [Cast_result (mk_results latency (1 / (3 - 0)) 1%Z)])).
Proof.
  apply (negative_count_runs_once
           (fun k => inject_Z (Z.of_nat k)) (fun _ => None) (fun _ => true)
           (-7)%Z false "X" "debug" (mk_Minion 0 0 [])).
  - reflexivity.
  - reflexivity.
  - reflexivity.
  - vm_compute. discriminate.
Defined.

(** X13.  If the clock has not moved between the first reading and the
    reading taken for the throughput, the division
    [calls/(now() - t_start)] raises [ZeroDivisionError]: all [count]
    operations have been performed and no report is cast. *)
Theorem zero_elapsed_raises_ZeroDivisionError
    clock op has_severity count verbose data severity self :
  (forall k, op k = None) ->
  (1 <= count)%Z ->
  has_severity severity = true ->
  let n := Z.to_nat count in
  clock (S (readings self) + 2 * n)%nat - clock (readings self) == 0 ->
  forall fuel, (n <= fuel)%nat ->
    let failed :=
      Some (Raises ZeroDivisionError
              (mk_Minion (S (S (readings self) + 2 * n))
                         (operations self + n) (sent self))) in
    _run_rpc_test clock op fuel count verbose self = failed /\
    test_notify clock op has_severity fuel count data severity verbose self
    = failed.
Proof.
  intros Hop Hc Hs n He fuel Hf failed.
  destruct (Z.to_nat count) as [|m] eqn:Em; [lia|]. subst n.
  destruct (while_not_stop_returns clock op Hop m fuel count
              Stats.__init__ 0%Z
              (mk_Minion (S (readings self)) (operations self) (sent self))
              [] summarises_init)
    as (latency & _ & Ew); try lia.
  cbn [readings operations sent] in Ew.
  unfold _run_rpc_test, test_notify, now, run_loop. rewrite Hs. cbn [negb].
  rewrite Ew. unfold report, now. step. cbn [readings operations sent].
  apply Qeq_bool_iff in He. rewrite He. split; reflexivity.
Qed.

Lemma zero_elapsed_raises_ZeroDivisionError_witness :
  _run_rpc_test (fun _ => 7) (fun _ => None) 3 3 false (mk_Minion 0 0 [])
  = Some (Raises ZeroDivisionError (mk_Minion 8 3 [])) /\
  test_notify (fun _ => 7) (fun _ => None) (fun _ => true) 3 3 "X" "debug"
              false (mk_Minion 0 0 [])
  = Some (Raises ZeroDivisionError (mk_Minion 8 3 [])).
Proof.
  apply (zero_elapsed_raises_ZeroDivisionError
           (fun _ => 7) (fun _ => None) (fun _ => true) 3%Z false "X" "debug"
           (mk_Minion 0 0 []) (fun _ => eq_refl)).
  - lia.
  - reflexivity.
  - reflexivity.
  - apply Nat.le_refl.
Defined.




Lemma probing_reply answers k : forall fuel attempts calls,
  (attempts + Z.of_nat k < 25)%Z ->
  (forall j, (j < k)%nat -> answers (calls + j)%nat = MessagingTimeout) ->
  answers (calls + k)%nat = Replies ->
  (k + 2 <= fuel)%nat ->
  _Base.probing answers fuel false attempts calls
  = Some (true, (attempts + Z.of_nat k)%Z, (calls + k + 1)%nat).
Proof.
  induction k as [|k IH]; intros fuel attempts calls Hlt Hto Hre Hf;
    (destruct fuel as [|fuel]; [lia|]); cbn [_Base.probing negb andb];
    replace (attempts <? 25)%Z with true by (symmetry; apply Z.ltb_lt; lia).
  - rewrite Nat.add_0_r in Hre. rewrite Hre.
    destruct fuel as [|fuel]; [lia|]. cbn [_Base.probing negb andb].
    replace (attempts + Z.of_nat 0)%Z with attempts by lia.
    replace (calls + 0 + 1)%nat with (S calls) by lia.
    reflexivity.
  - assert (H0 : answers calls = MessagingTimeout)
      by (rewrite <- (Nat.add_0_r calls); apply Hto; lia).
    rewrite H0.
    rewrite (IH fuel (attempts + 1)%Z (S calls)).
    + replace (attempts + 1 + Z.of_nat k)%Z
        with (attempts + Z.of_nat (S k))%Z by lia.
      replace (S calls + k + 1)%nat with (calls + S k + 1)%nat by lia.
      reflexivity.
    + lia.
    + intros j Hj. replace (S calls + j)%nat with (calls + S j)%nat by lia.
      apply Hto. lia.
    + replace (S calls + k)%nat with (calls + S k)%nat by lia. exact Hre.
    + lia.
Qed.

Lemma probing_exhausted answers m : forall fuel attempts calls,
  (attempts + Z.of_nat m = 25)%Z ->
  (forall j, (j < m)%nat -> answers (calls + j)%nat = MessagingTimeout) ->
  (m + 1 <= fuel)%nat ->
  _Base.probing answers fuel false attempts calls
  = Some (false, 25%Z, (calls + m)%nat).
Proof.
  induction m as [|m IH]; intros fuel attempts calls Heq Hto Hf;
    (destruct fuel as [|fuel]; [lia|]); cbn [_Base.probing negb andb].
  - replace (attempts <? 25)%Z with false by (symmetry; apply Z.ltb_ge; lia).
    replace attempts with 25%Z by lia.
    rewrite Nat.add_0_r. reflexivity.
  - replace (attempts <? 25)%Z with true by (symmetry; apply Z.ltb_lt; lia).
    assert (H0 : answers calls = MessagingTimeout)
      by (rewrite <- (Nat.add_0_r calls); apply Hto; lia).
    rewrite H0.
    rewrite (IH fuel (attempts + 1)%Z (S calls)).
    + replace (S calls + m)%nat with (calls + S m)%nat by lia. reflexivity.
    + lia.
    + intros j Hj. replace (S calls + j)%nat with (calls + S j)%nat by lia.
      apply Hto. lia.
    + lia.
Qed.

(** Among the first [n] calls either all time out or one is the first
    to be answered. *)
Lemma first_reply answers n :
  (forall j, (j < n)%nat -> answers j = MessagingTimeout) \/
  exists k, (k < n)%nat /\ answers k = Replies /\
            forall j, (j < k)%nat -> answers j = MessagingTimeout.
Proof.
  induction n as [|n [IH|(k & Hk & Hr & Hto)]].
  - left. intros j Hj. lia.
  - destruct (answers n) eqn:E.
    + right. exists n. split; [lia|]. split; [exact E|exact IH].
    + left. intros j Hj. destruct (Nat.eq_dec j n) as [->|]; [exact E|].
      apply IH. lia.
  - right. exists k. split; [lia|]. split; assumption.
Qed.

(** X15.  The readiness probe of [_Base.__init__] ends after at most 25
    calls.  It returns as soon as a call is answered, having made one
    call more than the number of time-outs before it; it raises "Unable
    to contact message bus" exactly when the first 25 calls all time
    out. *)
Theorem readiness_probe_is_bounded answers :
  (forall fuel, (26 <= fuel)%nat ->
     exists r,
       _Base.__init__ answers fuel = Some r /\
       match r with
       | Listening calls => (1 <= calls <= 25)%nat
       | Unable_to_contact_message_bus calls => calls = 25%nat
       end) /\
  (forall k,
     (k < 25)%nat ->
     (forall j, (j < k)%nat -> answers j = MessagingTimeout) ->
     answers k = Replies ->
     forall fuel, (k + 2 <= fuel)%nat ->
       _Base.__init__ answers fuel = Some (Listening (k + 1))) /\
  ((forall j, (j < 25)%nat -> answers j = MessagingTimeout) ->
   forall fuel, (26 <= fuel)%nat ->
     _Base.__init__ answers fuel
     = Some (Unable_to_contact_message_bus 25)) /\
  (forall fuel calls,
     _Base.__init__ answers fuel = Some (Unable_to_contact_message_bus calls) ->
     forall j, (j < 25)%nat -> answers j = MessagingTimeout).
Proof.
  assert (Hreply : forall k,
            (k < 25)%nat ->
            (forall j, (j < k)%nat -> answers j = MessagingTimeout) ->
            answers k = Replies ->
            forall fuel, (k + 2 <= fuel)%nat ->
              _Base.__init__ answers fuel = Some (Listening (k + 1))).
  { intros k Hk Hto Hre fuel Hf. unfold _Base.__init__.
    rewrite (probing_reply answers k fuel 0%Z 0%nat); try assumption; try lia.
    reflexivity. }
  assert (Hnone : (forall j, (j < 25)%nat -> answers j = MessagingTimeout) ->
                  forall fuel, (26 <= fuel)%nat ->
                    _Base.__init__ answers fuel
                    = Some (Unable_to_contact_message_bus 25)).
  { intros Hto fuel Hf. unfold _Base.__init__.
    rewrite (probing_exhausted answers 25 fuel 0%Z 0%nat); try assumption;
      try lia.
    reflexivity. }
  split; [|split; [exact Hreply|split; [exact Hnone|]]].
  - intros fuel Hf. destruct (first_reply answers 25) as [Hto|(k & Hk & Hr & Hto)].
    + eexists. split; [apply Hnone; assumption|]. reflexivity.
    + eexists. split; [apply (Hreply k Hk Hto Hr); lia|]. cbv beta iota. lia.
  - intros fuel calls E.
    destruct (first_reply answers 25) as [Hto|(k & Hk & Hr & Hto)];
      [exact Hto|].
    exfalso. unfold _Base.__init__ in E.
    destruct (le_lt_dec (k + 2) fuel) as [Hf|Hf].
    + rewrite (probing_reply answers k fuel 0%Z 0%nat) in E;
        try assumption; try lia.
      discriminate E.
    + (* too little fuel to reach the reply: the probe has not ended *)
      assert (Hn : _Base.probing answers fuel false 0%Z 0%nat = None).
      { clear E. 
        assert (G : forall fuel attempts made,
                   (fuel <= k + 1 - made)%nat -> (made <= k)%nat ->
                   attempts = Z.of_nat made ->
                   _Base.probing answers fuel false attempts made = None).
        { clear fuel Hf calls. induction fuel as [|fuel IHf];
            intros attempts made Hfu Hc Ha; [reflexivity|].
          cbn [_Base.probing negb andb].
          replace (attempts <? 25)%Z with true
            by (symmetry; apply Z.ltb_lt; lia).
          destruct (Nat.eq_dec made k) as [->|Hne].
          - rewrite Hr. destruct fuel; [reflexivity|lia].
          - rewrite (Hto made) by lia. apply IHf; lia. }
        apply G; lia. }
      rewrite Hn in E. discriminate E.
Qed.

Lemma readiness_probe_is_bounded_witness :
  _Base.__init__ fourth_call_answered 26 = Some (Listening (3 + 1)).
Proof.
  apply (proj1 (proj2 (readiness_probe_is_bounded fourth_call_answered)) 3%nat).
  - lia.
  - intros j Hj. destruct j as [|[|[|j]]]; [reflexivity..|lia].
  - reflexivity.
  - lia.
Defined.

(** ** _parse_args *)

Lemma lower_ascii_idem c : lower_ascii (lower_ascii c) = lower_ascii c.
Proof. destruct c as [[] [] [] [] [] [] [] []]; reflexivity. Qed.

Lemma lower_ascii_sep c :
  Ascii.eqb (lower_ascii c) "="%char = Ascii.eqb c "="%char.
Proof. destruct c as [[] [] [] [] [] [] [] []]; reflexivity. Qed.

Lemma lower_idem s : lower (lower s) = lower s.
Proof.
  induction s as [|c s IH]; cbn [lower]; [reflexivity|].
  now rewrite lower_ascii_idem, IH.
Qed.

Lemma append_cons c a b : String c a +:+ b = String c (a +:+ b).
Proof. reflexivity. Qed.

Lemma append_nil b : "" +:+ b = b.
Proof. reflexivity. Qed.

Lemma lower_app a b : lower (a +:+ b) = lower a +:+ lower b.
Proof.
  induction a as [|c a IH]; [reflexivity|].
  rewrite append_cons. cbn [lower]. now rewrite IH, append_cons.
Qed.

Lemma occurrences_lower s :
  occurrences "="%char (lower s) = occurrences "="%char s.
Proof.
  induction s as [|c s IH]; cbn [lower occurrences]; [reflexivity|].
  now rewrite lower_ascii_sep, IH.
Qed.

Lemma split_length sep s : length (split sep s) = S (occurrences sep s).
Proof.
  induction s as [|c s IH]; cbn [split occurrences]; [reflexivity|].
  destruct (Ascii.eqb c sep); cbn [length Nat.add].
  - now rewrite IH.
  - destruct (split sep s) as [|part parts]; cbn [length] in *; lia.
Qed.

Lemma split_none sep s : occurrences sep s = 0%nat -> split sep s = [s].
Proof.
  induction s as [|c s IH]; cbn [split occurrences]; [reflexivity|].
  destruct (Ascii.eqb c sep); [discriminate|].
  cbn [Nat.add]. intros H. now rewrite (IH H).
Qed.

Lemma split_app sep key rest :
  occurrences sep key = 0%nat ->
  split sep (key +:+ String sep rest) = key :: split sep rest.
Proof.
  induction key as [|c key IH].
  - intros _. rewrite append_nil. cbn [split]. now rewrite Ascii.eqb_refl.
  - rewrite append_cons. cbn [split occurrences].
    destruct (Ascii.eqb c sep); [discriminate|].
    cbn [Nat.add]. intros H. now rewrite (IH H).
Qed.

Lemma get_set_same key v d : Dict.get key (Dict.set key v d) = Some v.
Proof.
  induction d as [|[k x] d IH]; cbn [Dict.get Dict.set].
  - now rewrite String.eqb_refl.
  - destruct (String.eqb k key) eqn:E; cbn [Dict.get]; now rewrite E.
Qed.

Lemma get_set_other key key' v d :
  key' <> key -> Dict.get key' (Dict.set key v d) = Dict.get key' d.
Proof.
  intros Hne. induction d as [|[k x] d IH]; cbn [Dict.get Dict.set].
  - destruct (String.eqb_spec key key'); [congruence|reflexivity].
  - destruct (String.eqb_spec k key) as [->|Hk]; cbn [Dict.get].
    + destruct (String.eqb_spec key key'); [congruence|reflexivity].
    + now rewrite IH.
Qed.

Lemma keys_set key v d :
  Dict.get key d <> None -> Dict.keys (Dict.set key v d) = Dict.keys d.
Proof.
  unfold Dict.keys.
  induction d as [|[k x] d IH]; cbn [Dict.get Dict.set]; [congruence|].
  destruct (String.eqb k key); cbn [map fst]; [reflexivity|].
  intros H. now rewrite (IH H).
Qed.

Lemma set_set key v1 v2 d :
  Dict.set key v2 (Dict.set key v1 d) = Dict.set key v2 d.
Proof.
  induction d as [|[k x] d IH]; cbn [Dict.set].
  - now rewrite String.eqb_refl.
  - destruct (String.eqb k key) eqn:E; cbn [Dict.set]; rewrite E;
      [reflexivity|now rewrite IH].
Qed.

Lemma same_kind_refl a : same_kind a a.
Proof. now destruct a as [[]|]. Qed.

Lemma same_kind_trans a b c : same_kind a b -> same_kind b c -> same_kind a c.
Proof.
  destruct a as [[]|], b as [[]|], c as [[]|]; cbn; tauto.
Qed.

Lemma set_same_kind key v d k :
  same_kind (Dict.get key d) (Some v) ->
  same_kind (Dict.get k d) (Dict.get k (Dict.set key v d)).
Proof.
  intros H. destruct (String.eqb_spec k key) as [->|Hne].
  - now rewrite get_set_same.
  - rewrite get_set_other by exact Hne. apply same_kind_refl.
Qed.

Lemma _parse_args_app int good rest values v1 :
  _parse_args int good values = (Values v1, []) ->
  _parse_args int (good ++ rest) values = _parse_args int rest v1.
Proof.
  revert values. induction good as [|a good IH]; intros values.
  - cbn. now intros [= ->].
  - cbn [_parse_args app]. cbv zeta.
    destruct (split "="%char (lower a)) as [|key [|value [|]]];
      try discriminate.
    destruct (Dict.get key values) as [[n|s|]|]; try discriminate;
      [destruct (int value); [|discriminate]|..]; apply IH.
Qed.

(** X16.  Whatever the arguments, and whether [_parse_args] returns or
    raises, the dictionary keeps its keys in their order, and every key
    keeps the kind of its value: an integer stays an integer, and a
    value that is not an integer never becomes one. *)
Theorem parsing_keeps_keys_and_kinds int args values :
  let values' := values_of (fst (_parse_args int args values)) in
  Dict.keys values' = Dict.keys values /\
  forall key, same_kind (Dict.get key values) (Dict.get key values').
Proof.
  revert values. induction args as [|a args IH]; intros values.
  - cbn. split; [reflexivity|]. intros; apply same_kind_refl.
  - cbn [_parse_args]. cbv zeta.
    destruct (split "="%char (lower a)) as [|key [|value [|]]];
      try (cbn; split; [reflexivity|intros; apply same_kind_refl]).
    destruct (Dict.get key values) as [old|] eqn:E;
      [|cbn; split; [reflexivity|intros; apply same_kind_refl]].
    assert (step : forall v, same_kind (Some old) (Some v) ->
      Dict.keys (values_of (fst (_parse_args int args (Dict.set key v values))))
        = Dict.keys values /\
      forall k, same_kind (Dict.get k values)
        (Dict.get k (values_of (fst (_parse_args int args
                                         (Dict.set key v values)))))).
    { intros v Hv. destruct (IH (Dict.set key v values)) as [Hk Hs].
      cbv zeta in Hk, Hs. split.
      - rewrite Hk. apply keys_set. now rewrite E.
      - intros k. eapply same_kind_trans; [|apply Hs].
        apply set_same_kind. now rewrite E. }
    destruct old as [n|s|].
    + destruct (int value) as [m|];
        [apply step; exact I
        |cbn; split; [reflexivity|intros; apply same_kind_refl]].
    + apply step; exact I.
    + apply step; exact I.
Qed.

(** X17.  After a prefix of accepted arguments, the first argument that
    does not hold exactly one [=] is rejected with
    [SyntaxError("bad argument: ...")] after the two lines about the
    format; one whose key is not in the dictionary with
    [SyntaxError("unknown argument: ...")] after the line that lists the
    keys; one whose key holds an integer and whose text [int] refuses
    with [int]'s [ValueError], nothing printed.  In each case the
    dictionary is left as the prefix has set it and the remaining
    arguments are not read. *)
Theorem first_bad_argument_is_rejected int good bad rest values v1 :
  _parse_args int good values = (Values v1, []) ->
  (occurrences "="%char bad <> 1%nat ->
   _parse_args int (good ++ bad :: rest) values =
   (Rejected (SyntaxError ("bad argument: " ++ lower bad)) v1,
    [Text_line "Error - argument format is key=value";
     Text_line (" - " ++ lower bad ++ " is not valid")])) /\
  (forall key value,
   split "="%char (lower bad) = [key; value] ->
   Dict.get key v1 = None ->
   _parse_args int (good ++ bad :: rest) values =
   (Rejected (SyntaxError ("unknown argument: " ++ key)) v1,
    [Text_line ("Error - unrecognized argument " ++ key);
     Keys_line (Dict.keys v1)])) /\
  (forall key value n,
   split "="%char (lower bad) = [key; value] ->
   Dict.get key v1 = Some (Int n) ->
   int value = None ->
   _parse_args int (good ++ bad :: rest) values =
   (Rejected (IntValueError value) v1, [])).
Proof.
  intros Hgood. rewrite (_parse_args_app int good (bad :: rest) values v1 Hgood).
  cbn [_parse_args]. cbv zeta. split; [|split].
  - intros Hn.
    pose proof (split_length "="%char (lower bad)) as L.
    rewrite occurrences_lower in L.
    destruct (split "="%char (lower bad)) as [|key [|value [|]]];
      try reflexivity.
    cbn [length] in L. lia.
  - intros key value -> ->. reflexivity.
  - intros key value n -> -> ->. reflexivity.
Qed.

(** X18.  Arguments are read without regard to case, keys and values
    alike: lowering every argument beforehand changes nothing. *)
Theorem arguments_are_case_insensitive int args values :
  _parse_args int (map lower args) values = _parse_args int args values.
Proof.
  revert values. induction args as [|a args IH]; intros values;
    [reflexivity|].
  cbn [_parse_args map]. cbv zeta. rewrite lower_idem.
  destruct (split "="%char (lower a)) as [|key [|value [|]]];
    try reflexivity.
  destruct (Dict.get key values) as [[n|s|]|]; try reflexivity;
    [destruct (int value); [|reflexivity]|..]; apply IH.
Qed.

(** X19.  The argument [key=text], for a key of the dictionary, with no
    [=] inside [key] or [text]: if the key holds an integer, [int] of
    the lowered text is stored, or its [ValueError] raised with the
    dictionary unchanged; otherwise the lowered text is stored as a
    string.  The keys and every other entry are as before. *)
Theorem assignment_sets_the_lowered_value int key text values old :
  occurrences "="%char key = 0%nat ->
  occurrences "="%char text = 0%nat ->
  Dict.get (lower key) values = Some old ->
  let arg := key +:+ "=" +:+ text in
  let stored :=
    match old with
    | Int _ => option_map Int (int (lower text))
    | _ => Some (Str (lower text))
    end in
  match stored with
  | Some v =>
      exists values',
        _parse_args int [arg] values = (Values values', []) /\
        Dict.get (lower key) values' = Some v /\
        Dict.keys values' = Dict.keys values /\
        forall other, other <> lower key ->
          Dict.get other values' = Dict.get other values
  | None =>
      _parse_args int [arg] values =
      (Rejected (IntValueError (lower text)) values, [])
  end.
Proof.
  intros Hk Ht Hold arg. subst arg.
  assert (S : split "="%char (lower (key +:+ "=" +:+ text))
              = [lower key; lower text]).
  { rewrite lower_app.
    change (lower ("=" +:+ text)) with (String "="%char (lower text)).
    rewrite split_app by now rewrite occurrences_lower.
    now rewrite split_none by now rewrite occurrences_lower. }
  assert (G : forall v, exists values',
      (Values (Dict.set (lower key) v values), @nil diagnostic)
        = (Values values', []) /\
      Dict.get (lower key) values' = Some v /\
      Dict.keys values' = Dict.keys values /\
      forall other, other <> lower key ->
        Dict.get other values' = Dict.get other values).
  { intros v. eexists; split; [reflexivity|]. split; [apply get_set_same|].
    split; [apply keys_set; now rewrite Hold|].
    intros other Hne. now apply get_set_other. }
  cbn [_parse_args]. cbv zeta. rewrite S, Hold.
  destruct old as [n|s|]; [|apply G..].
  destruct (int (lower text)) as [m|]; cbn [option_map];
    [apply G|reflexivity].
Qed.

(** X20.  Of two consecutive accepted arguments for the same key the
    first has no effect: the result is that of the arguments without
    it. *)
Theorem last_assignment_wins int first second rest values key v1 v2 a1 a2 :
  split "="%char (lower first) = [key; v1] ->
  split "="%char (lower second) = [key; v2] ->
  _parse_args int [first] values = (Values a1, []) ->
  _parse_args int [second] values = (Values a2, []) ->
  _parse_args int (first :: second :: rest) values =
  _parse_args int (second :: rest) values.
Proof.
  intros S1 S2. cbn [_parse_args]. cbv zeta. rewrite S1, S2.
  destruct (Dict.get key values) as [[n|s|]|] eqn:E; try discriminate.
  - destruct (int v1) as [m|]; [|discriminate]. intros _.
    rewrite get_set_same.
    destruct (int v2); [now rewrite set_set|discriminate].
  - intros _ _. now rewrite get_set_same, set_set.
  - intros _ _. now rewrite get_set_same, set_set.
Qed.

Lemma first_bad_argument_is_rejected_witness :
  _parse_args no_int (["SEVERITY=Info"] ++ ["verbose"; "calls=5"])
    notify_defaults =
  (Rejected (SyntaxError ("bad argument: " ++ lower "verbose"))
     (Dict.set "severity" (Str "info") notify_defaults),
   [Text_line "Error - argument format is key=value";
    Text_line (" - " ++ lower "verbose" ++ " is not valid")]).
Proof.
  apply (proj1 (first_bad_argument_is_rejected no_int ["SEVERITY=Info"]
                  "verbose" ["calls=5"] notify_defaults
                  (Dict.set "severity" (Str "info") notify_defaults)
                  eq_refl)).
  vm_compute. discriminate.
Defined.

Lemma assignment_sets_the_lowered_value_witness :
  exists values',
    _parse_args no_int ["Severity" +:+ "=" +:+ "INFO"] notify_defaults
      = (Values values', []) /\
    Dict.get (lower "Severity") values' = Some (Str (lower "INFO")) /\
    Dict.keys values' = Dict.keys notify_defaults /\
    forall other, other <> lower "Severity" ->
      Dict.get other values' = Dict.get other notify_defaults.
Proof.
  exact (assignment_sets_the_lowered_value no_int "Severity" "INFO"
           notify_defaults (Str "debug") eq_refl eq_refl eq_refl).
Defined.

Lemma last_assignment_wins_witness :
  _parse_args no_int ["severity=info"; "severity=warn"; "verbose=1"]
    notify_defaults =
  _parse_args no_int ["severity=warn"; "verbose=1"] notify_defaults.
Proof.
  exact (last_assignment_wins no_int "severity=info" "severity=warn"
           ["verbose=1"] notify_defaults "severity" "info" "warn"
           _ _ eq_refl eq_refl eq_refl eq_refl).
Defined.
